(** * Server room monitoring node: card reader driver and sensor manager

    Shallow embedding of
    - [firmware/raspberrypi/src/rfid.py]: the MFRC522 driver ([MFRC522_ToCard],
      [MFRC522_Anticoll]) and [RFIDReader.authenticate_card] with the static
      [AUTHORIZED_CARDS] table;
    - [firmware/raspberrypi/src/sensors.py]: [SensorManager] with its status
      table, the per-channel poll iterations and the two alert handlers
      sharing one cooldown timestamp. *)

From stdpp Require Import base gmap strings list pretty.
From Stdlib Require Import ZArith Lia Ascii.
Open Scope Z_scope.

(** ** Python-level results: a value or a raised exception *)

Inductive Exc (A : Type) : Type :=
| Ok (a : A)
| Raised (exn : string).
Arguments Ok {A} a.
Arguments Raised {A} exn.

Definition exc_bind {A B} (m : Exc A) (k : A -> Exc B) : Exc B :=
  match m with Ok a => k a | Raised e => Raised e end.

(** [l[i]] on a Python list: [IndexError] out of range. *)
Definition py_index (l : list Z) (i : nat) : Exc Z :=
  match l !! i with Some x => Ok x | None => Raised "IndexError" end.

(** ** Logging *)

Inductive Level := LDEBUG | LINFO | LWARNING | LERROR.

Inductive Arg := AStr (s : string) | AInt (z : Z).

Record LogEntry := mkLog { lvl : Level; fmt : string; args : list Arg }.

(** ** rfid.py *)

Module RFID.

(** [class RFIDStatus(IntEnum)] *)
Inductive RFIDStatus := OK | NO_TAG | ERROR.

Definition RFIDStatus_eqb (a b : RFIDStatus) : bool :=
  match a, b with
  | OK, OK | NO_TAG, NO_TAG | ERROR, ERROR => true
  | _, _ => false
  end.

(** Register addresses and commands of [class MFRC522]. *)
Definition MAX_LEN : Z := 16.
Definition CommandReg : Z := 0x01.
Definition CommIEnReg : Z := 0x02.
Definition CommIrqReg : Z := 0x04.
Definition ErrorReg : Z := 0x06.
Definition FIFODataReg : Z := 0x0A.
Definition FIFOLevelReg : Z := 0x0B.
Definition ControlReg : Z := 0x0D.
Definition BitFramingReg : Z := 0x0E.
Definition PCD_IDLE : Z := 0x00.
Definition PCD_AUTHENT : Z := 0x0E.
Definition PCD_TRANSCEIVE : Z := 0x0C.
Definition PICC_ANTICOLL : Z := 0x93.

(** The SPI bus as seen by the driver: every [spi.xfer2] frame sent, the
    number of read transfers done so far, and the log lines emitted. *)
Record Bus := mkBus {
  frames : list (list Z);
  nreads : nat;
  log : list LogEntry
}.

Definition M (A : Type) : Type := Bus -> A * Bus.

Global Instance M_ret : MRet M := fun A a s => (a, s).
Global Instance M_bind : MBind M := fun A B k m s =>
  let '(a, s') := m s in k a s'.

Definition emit (e : LogEntry) : M unit := fun s =>
  (tt, mkBus (frames s) (nreads s) (log s ++ [e])).

Section Driver.

(** The chip: the byte it answers on the [k]-th read transfer of register
    [addr]. Any behaviour of the hardware is allowed. *)
Variable chip : nat -> Z -> Z.

(** [Write_MFRC522]: [self.spi.xfer2([(addr << 1) & 0x7E, val])]. *)
Definition Write_MFRC522 (addr val : Z) : M unit := fun s =>
  (tt, mkBus (frames s ++ [[Z.land (Z.shiftl addr 1) 0x7E; val]]) (nreads s) (log s)).

(** [Read_MFRC522]: [xfer2([((addr << 1) & 0x7E) | 0x80, 0])[1]]. *)
Definition Read_MFRC522 (addr : Z) : M Z := fun s =>
  (chip (nreads s) addr,
   mkBus (frames s ++ [[Z.lor (Z.land (Z.shiftl addr 1) 0x7E) 0x80; 0]])
         (S (nreads s)) (log s)).

Definition SetBitMask (reg mask : Z) : M unit :=
  tmp ← Read_MFRC522 reg; Write_MFRC522 reg (Z.lor tmp mask).

Definition ClearBitMask (reg mask : Z) : M unit :=
  tmp ← Read_MFRC522 reg; Write_MFRC522 reg (Z.land tmp (Z.lnot mask)).

Fixpoint write_all (reg : Z) (l : list Z) : M unit :=
  match l with
  | [] => mret tt
  | x :: l' => Write_MFRC522 reg x;; write_all reg l'
  end.

Fixpoint read_n (reg : Z) (k : nat) : M (list Z) :=
  match k with
  | O => mret []
  | S k' => x ← Read_MFRC522 reg; xs ← read_n reg k'; mret (x :: xs)
  end.

(** [irqEn, waitIRq] chosen by the command. *)
Definition irq_masks (command : Z) : Z * Z :=
  if command =? PCD_AUTHENT then (0x12, 0x10)
  else if command =? PCD_TRANSCEIVE then (0x77, 0x30)
  else (0x00, 0x00).

(** The polling loop of [MFRC522_ToCard]:
<<
        i = 2000
        while i:
            n = self.Read_MFRC522(self.CommIrqReg)
            i -= 1
            if n & 0x01 or n & waitIRq:
                break
>>
    returns the last [n] read and the remaining counter [i]. *)
Fixpoint poll_irq (i : nat) (waitIRq n : Z) : M (Z * nat) :=
  match i with
  | O => mret (n, O)
  | S i' =>
      n' ← Read_MFRC522 CommIrqReg;
      if negb (Z.land n' 0x01 =? 0) || negb (Z.land n' waitIRq =? 0)
      then mret (n', i')
      else poll_irq i' waitIRq n'
  end.

Definition POLL_CEILING : nat := 2000.

(** Lines 257-275: program the interrupts, flush the FIFO, load the data
    and start the command. *)
Definition ToCard_setup (command : Z) (sendData : list Z) : M unit :=
  let '(irqEn, _) := irq_masks command in
  Write_MFRC522 CommIEnReg (Z.lor irqEn 0x80);;
  ClearBitMask CommIrqReg 0x80;;
  SetBitMask FIFOLevelReg 0x80;;
  Write_MFRC522 CommandReg PCD_IDLE;;
  write_all FIFODataReg sendData;;
  Write_MFRC522 CommandReg command;;
  (if command =? PCD_TRANSCEIVE then SetBitMask BitFramingReg 0x80 else mret tt).

(** Lines 284-303: evaluate the outcome of the poll. *)
Definition ToCard_finish (command : Z) (n : Z) (i : nat)
    : M (RFIDStatus * list Z * Z) :=
  let '(irqEn, _) := irq_masks command in
  ClearBitMask BitFramingReg 0x80;;
  match i with
  | O => mret (ERROR, [], 0)
  | S _ =>
      e ← Read_MFRC522 ErrorReg;
      if Z.land e 0x1B =? 0 then
        let status := if negb (Z.land (Z.land n irqEn) 0x01 =? 0) then NO_TAG else OK in
        if command =? PCD_TRANSCEIVE then
          n' ← Read_MFRC522 FIFOLevelReg;
          c ← Read_MFRC522 ControlReg;
          let lastBits := Z.land c 0x07 in
          let backLen := if negb (lastBits =? 0) then (n' - 1) * 8 + lastBits else n' * 8 in
          backData ← read_n FIFODataReg (Z.to_nat (Z.min n' MAX_LEN));
          mret (status, backData, backLen)
        else mret (status, [], 0)
      else mret (ERROR, [], 0)
  end.

(** [MFRC522_ToCard(command, sendData) -> (status, backData, backLen)].
    The Python [n] is unbound before the loop; the loop always runs at
    least once (2000 > 0), so its initial value here is irrelevant. *)
Definition MFRC522_ToCard (command : Z) (sendData : list Z)
    : M (RFIDStatus * list Z * Z) :=
  ToCard_setup command sendData;;
  '(n, i) ← poll_irq POLL_CEILING (snd (irq_masks command)) 0;
  ToCard_finish command n i.

(** Lines 317-318: the anti-collision exchange. *)
Definition anticoll_exchange : M (RFIDStatus * list Z * Z) :=
  Write_MFRC522 BitFramingReg 0x00;;
  MFRC522_ToCard PCD_TRANSCEIVE [PICC_ANTICOLL; 0x20].

End Driver.

(** Lines 320-327: the checksum test on the returned bytes.
<<
        if status == RFIDStatus.OK and len(backData) == 5:
            serNumCheck = 0
            for i in range(4):
                serNumCheck ^= backData[i]
            if serNumCheck != backData[4]:
                status = RFIDStatus.ERROR
        return status, backData
>> *)
Fixpoint xor_loop (backData : list Z) (idx : list nat) (acc : Z) : Exc Z :=
  match idx with
  | [] => Ok acc
  | i :: idx' => exc_bind (py_index backData i) (fun b => xor_loop backData idx' (Z.lxor acc b))
  end.

Definition anticoll_check (status : RFIDStatus) (backData : list Z)
    : Exc (RFIDStatus * list Z) :=
  if RFIDStatus_eqb status OK && (length backData =? 5)%nat then
    exc_bind (xor_loop backData [0; 1; 2; 3]%nat 0) (fun serNumCheck =>
    exc_bind (py_index backData 4) (fun b4 =>
      if negb (serNumCheck =? b4) then Ok (ERROR, backData) else Ok (status, backData)))
  else Ok (status, backData).

Definition MFRC522_Anticoll (chip : nat -> Z -> Z) : M (Exc (RFIDStatus * list Z)) :=
  '(status, backData, _) ← anticoll_exchange chip;
  mret (anticoll_check status backData).

(** [@dataclass class CardInfo] *)
Record CardInfo := mkCardInfo { name : string; role : string }.

Abbreviation UIDKey := (Z * Z * Z * Z * Z)%type.

(** [AUTHORIZED_CARDS: Dict[Tuple[int, int, int, int, int], CardInfo]] *)
Definition AUTHORIZED_CARDS : gmap UIDKey CardInfo :=
  list_to_map [
    ((5, 74, 28, 185, 234), mkCardInfo "Card A" "admin");
    ((83, 164, 247, 164, 164), mkCardInfo "Card B" "IT staff");
    ((20, 38, 121, 207, 132), mkCardInfo "Card C" "maintenance")].

(** [RFIDReader.authenticate_card], over the card table it reads. The whole
    body is inside [try: ... except Exception: return RFIDStatus.ERROR, None]. *)
Definition authenticate_card_in (cards : gmap UIDKey CardInfo) (uid : list Z)
    : M (RFIDStatus * option string) :=
  if negb (length uid =? 5)%nat then
    emit (mkLog LWARNING "Invalid UID length: %d" [AInt (Z.of_nat (length uid))]);;
    mret (ERROR, None)
  else
    match exc_bind (py_index uid 0) (fun u0 => exc_bind (py_index uid 1) (fun u1 =>
          exc_bind (py_index uid 2) (fun u2 => exc_bind (py_index uid 3) (fun u3 =>
          exc_bind (py_index uid 4) (fun u4 => Ok (u0, u1, u2, u3, u4)))))) with
    | Raised e =>
        emit (mkLog LERROR "Error authenticating card: %s" [AStr e]);;
        mret (ERROR, None)
    | Ok card_uid_tuple =>
        match cards !! card_uid_tuple with
        | Some card_info =>
            emit (mkLog LINFO "Card authenticated: %s (%s)"
                    [AStr (name card_info); AStr (role card_info)]);;
            mret (OK, Some (role card_info))
        | None =>
            emit (mkLog LWARNING "Unauthorized card detected" []);;
            mret (ERROR, None)
        end
    end.

Definition authenticate_card (uid : list Z) : M (RFIDStatus * option string) :=
  authenticate_card_in AUTHORIZED_CARDS uid.

(** The table entry a UID list denotes, when it has the key's shape. *)
Definition card_lookup (uid : list Z) : option CardInfo :=
  match uid with
  | [u0; u1; u2; u3; u4] => AUTHORIZED_CARDS !! (u0, u1, u2, u3, u4)
  | _ => None
  end.

End RFID.

(** ** sensors.py *)

Module Sensors.
Import RFID.

(** Values stored in a [data] dict of a status entry. *)
Inductive Val :=
| VBool (b : bool)
| VStr (s : string)
| VOptStr (o : option string).

Abbreviation Data := (list (string * Val)).

(** Times are [datetime] values as microseconds. *)
Abbreviation Time := Z.

(** [@dataclass class SensorStatus] *)
Record SensorStatus := mkStatus {
  name : string;
  is_active : bool;
  last_check : Time;
  type : string;
  location : option string;
  error : option string;
  data : option Data;
  firmware_version : option string;
  last_event_timestamp : option Time;
  event_count : Z
}.

(** Calls made to the camera and notification collaborators. *)
Record AlertData := mkAlert {
  alert_event_type : string;
  alert_message : string;
  alert_timestamp : Time;
  alert_media_url : option string;
  alert_sensor_data : Data;
  alert_severity : string
}.

Inductive Call :=
| CaptureImage
| RecordVideo (duration : Z)
| SendAlert (alert : AlertData).

(** The fields of [SensorManager] the claims are about; the reader's bus
    is the one used by [self._rfid_reader]. *)
Record SM := mkSM {
  sensor_status : gmap string SensorStatus;
  last_event_time : Time;
  event_cooldown : Z;
  reader : Bus;
  logs : list LogEntry;
  calls : list Call
}.

Definition set_status (st : gmap string SensorStatus) (sm : SM) : SM :=
  mkSM st (last_event_time sm) (event_cooldown sm) (reader sm) (logs sm) (calls sm).
Definition set_last_event_time (t : Time) (sm : SM) : SM :=
  mkSM (sensor_status sm) t (event_cooldown sm) (reader sm) (logs sm) (calls sm).
Definition set_reader (b : Bus) (sm : SM) : SM :=
  mkSM (sensor_status sm) (last_event_time sm) (event_cooldown sm) b (logs sm) (calls sm).
Definition add_log (e : LogEntry) (sm : SM) : SM :=
  mkSM (sensor_status sm) (last_event_time sm) (event_cooldown sm) (reader sm) (logs sm ++ [e]) (calls sm).
Definition add_call (c : Call) (sm : SM) : SM :=
  mkSM (sensor_status sm) (last_event_time sm) (event_cooldown sm) (reader sm) (logs sm) (calls sm ++ [c]).

Definition SECOND : Z := 1000000.

(** [_initialize_sensor_status(sensor_name, type, location)] *)
Definition _initialize_sensor_status (sensor_name type : string) (location : option string)
    (now : Time) (sm : SM) : SM :=
  match sensor_status sm !! sensor_name with
  | Some _ => sm
  | None =>
      set_status (<[sensor_name := mkStatus sensor_name false now type location
                                    None None None None 0]> (sensor_status sm)) sm
  end.

(** [SensorManager.__init__] with the default pins, at time [now], with
    [EVENT_COOLDOWN] = [cooldown]:
    [self._last_event_time = datetime.now() - timedelta(seconds=300)]. *)
Definition SensorManager_init (now : Time) (cooldown : Z) : SM :=
  let sm := mkSM ∅ (now - 300 * SECOND) cooldown (mkBus [] 0 []) [] [] in
  let sm := _initialize_sensor_status "motion" "motion" (Some "pin_17") now sm in
  let sm := _initialize_sensor_status "door" "door" (Some "pin_27") now sm in
  let sm := _initialize_sensor_status "window" "window" (Some "pin_22") now sm in
  let sm := _initialize_sensor_status "rfid" "rfid" (Some "main_reader") now sm in
  let sm := _initialize_sensor_status "camera" "camera" (Some "main_camera") now sm in
  let sm := _initialize_sensor_status "door_lock" "actuator" (Some "pin_24") now sm in
  _initialize_sensor_status "window_lock" "actuator" (Some "pin_25") now sm.

(** The [elif] chain choosing [fallback_type]. *)
Definition fallback_type (sensor_name : string) : string :=
  if String.eqb sensor_name "motion" then "motion"
  else if String.eqb sensor_name "door" then "door"
  else if String.eqb sensor_name "window" then "window"
  else if String.eqb sensor_name "rfid" then "rfid"
  else if String.eqb sensor_name "camera" then "camera"
  else if String.eqb sensor_name "door_lock" then "actuator"
  else if String.eqb sensor_name "window_lock" then "actuator"
  else "unknown".

(** [_update_sensor_status(sensor_name, is_active, error, data, event_detected)];
    [now] is its [datetime.now()]. The entry is mutated in place; no other
    reference to it escapes ([get_sensor_status] copies through [to_dict]). *)
Definition _update_sensor_status (sensor_name : string) (is_active : bool)
    (error : option string) (data : option Data) (event_detected : bool)
    (now : Time) (sm : SM) : SM :=
  match sensor_status sm !! sensor_name with
  | Some cur =>
      let cur' := mkStatus (name cur) is_active now (type cur) (location cur) error data
                    (firmware_version cur)
                    (if event_detected then Some now else last_event_timestamp cur)
                    (if event_detected then event_count cur + 1 else event_count cur) in
      set_status (<[sensor_name := cur']> (sensor_status sm)) sm
  | None =>
      let sm := add_log (mkLog LWARNING
                  "Attempted to update status for uninitialized sensor: {sensor_name}. Creating entry."
                  [AStr sensor_name]) sm in
      let entry := mkStatus sensor_name is_active now (fallback_type sensor_name) None error data
                    None (if event_detected then Some now else None)
                    (if event_detected then 1 else 0) in
      set_status (<[sensor_name := entry]> (sensor_status sm)) sm
  end.

(** Outcome of the camera collaborator for one handler run: what
    [capture_image()] and [record_video(duration)] return or raise (both
    re-raise their failures). [send_alert] never raises: every channel it
    uses catches its own exceptions and only logs. *)
Record CamResult := mkCam {
  image_result : Exc (string * option string);
  video_result : Exc (string * option string)
}.

Definition cam_ok (cam : CamResult) : bool :=
  match image_result cam, video_result cam with
  | Ok _, Ok _ => true
  | _, _ => false
  end.

(** [(current_time - self._last_event_time).total_seconds() < self._event_cooldown],
    on microsecond times and an integer cooldown in seconds (the float
    quotient compares like the exact one for any realistic cooldown). *)
Definition cooldown_active (sm : SM) (current_time : Time) : bool :=
  current_time - last_event_time sm <? event_cooldown sm * SECOND.

(** The two alert paths. *)
Inductive Handler :=
| HIntrusion (event_type message : string)
| HUnauthorized (uid : string).

Definition video_duration (h : Handler) : Z :=
  match h with HIntrusion _ _ => 10 | HUnauthorized _ => 30 end.

Definition skip_message (h : Handler) : string :=
  match h with
  | HIntrusion _ _ => "Intrusion event cooldown active, skipping media capture"
  | HUnauthorized _ => "Unauthorized access event cooldown active, skipping media capture"
  end.

Definition failure_message (h : Handler) : string :=
  match h with
  | HIntrusion _ _ => "Failed to handle intrusion event: %s"
  | HUnauthorized _ => "Failed to handle unauthorized access event: %s"
  end.

(** [event_type.split('_')[0]] *)
Fixpoint split_head (s : string) : string :=
  match s with
  | EmptyString => EmptyString
  | String c s' => if Ascii.eqb c "_"%char then EmptyString else String c (split_head s')
  end.

(** [create_intrusion_alert] and [create_rfid_alert] of notifications.py. *)
Definition create_intrusion_alert (event_type message : string) (media_url : option string)
    (sensor_data : Data) (now : Time) : AlertData :=
  mkAlert event_type message now media_url sensor_data "critical".

Definition create_rfid_alert (event_type message uid : string) (media_url : option string)
    (now : Time) : AlertData :=
  mkAlert event_type message now media_url [("card_uid", VStr uid)]
    (if String.eqb event_type "unauthorized_access" then "critical" else "medium").

(** The [try:] block of both handlers, entered once the cooldown check has
    passed at [current_time]. *)
Definition dispatch (h : Handler) (current_time : Time) (cam : CamResult) (sm : SM) : SM :=
  let sm := add_call CaptureImage sm in
  match image_result cam with
  | Raised e =>
      add_log (mkLog LERROR (failure_message h) [AStr e])
        (_update_sensor_status "camera" false (Some e) None false current_time sm)
  | Ok (image_path, image_url) =>
      let sm := add_call (RecordVideo (video_duration h)) sm in
      match video_result cam with
      | Raised e =>
          add_log (mkLog LERROR (failure_message h) [AStr e])
            (_update_sensor_status "camera" false (Some e) None false current_time sm)
      | Ok (video_path, video_url) =>
          let cam_data :=
            [("last_image", VStr image_path); ("last_image_url", VOptStr image_url);
             ("last_video", VStr video_path); ("last_video_url", VOptStr video_url)] in
          let '(cam_data, alert, warn) :=
            match h with
            | HIntrusion event_type message =>
                (cam_data ++ [("trigger_event", VStr event_type)],
                 create_intrusion_alert event_type message image_url
                   [("location", VStr (split_head event_type));
                    ("image_url", VOptStr image_url); ("video_url", VOptStr video_url)]
                   current_time,
                 "Intrusion detected! Media captured: %s, %s")
            | HUnauthorized uid =>
                (cam_data ++ [("trigger_event", VStr "unauthorized_access"); ("uid", VStr uid)],
                 create_rfid_alert "unauthorized_access" "Unauthorized RFID access attempt"
                   uid image_url current_time,
                 "Unauthorized access! Media captured: %s, %s")
            end in
          let sm := _update_sensor_status "camera" true None (Some cam_data) true current_time sm in
          let sm := add_call (SendAlert alert) sm in
          let sm := add_log (mkLog LWARNING warn [AStr image_path; AStr video_path]) sm in
          set_last_event_time current_time sm
      end
  end.

(** [_handle_intrusion_event] / [_handle_unauthorized_access] at [current_time]. *)
Definition handle (h : Handler) (current_time : Time) (cam : CamResult) (sm : SM) : SM :=
  if cooldown_active sm current_time then add_log (mkLog LDEBUG (skip_message h) []) sm
  else dispatch h current_time cam sm.

Definition _handle_intrusion_event (event_type message : string) :=
  handle (HIntrusion event_type message).

Definition _handle_unauthorized_access (uid : string) :=
  handle (HUnauthorized uid).

(** One iteration of the [while self._running:] loops of [_handle_motion],
    [_handle_door] and [_handle_window]; they differ only in these names. *)
Record Contact := mkContact {
  chan : string;
  data_key : string;
  contact_event_type : string;
  contact_message : string;
  error_format : string
}.

Definition motion_contact : Contact :=
  mkContact "motion" "detected" "motion_detected" "Motion detected in server room"
    "Motion sensor error: %s".
Definition door_contact : Contact :=
  mkContact "door" "open" "door_opened" "Door opened in server room" "Door sensor error: %s".
Definition window_contact : Contact :=
  mkContact "window" "open" "window_opened" "Window opened in server room"
    "Window sensor error: %s".

(** [reading] is what [check_motion()] / [check_state()] returns or raises. *)
Definition contact_iteration (c : Contact) (reading : Exc bool) (now : Time)
    (cam : CamResult) (sm : SM) : SM :=
  match reading with
  | Raised e =>
      add_log (mkLog LERROR (error_format c) [AStr e])
        (_update_sensor_status (chan c) false (Some e) None false now sm)
  | Ok detected =>
      let sm := _update_sensor_status (chan c) true None (Some [(data_key c, VBool detected)])
                  false now sm in
      if detected then
        let sm := add_log (mkLog LINFO (contact_message c) []) sm in
        let sm := _update_sensor_status (chan c) true None (Some [(data_key c, VBool true)])
                    true now sm in
        _handle_intrusion_event (contact_event_type c) (contact_message c) now cam sm
      else sm
  end.

Definition _handle_motion_iteration := contact_iteration motion_contact.
Definition _handle_door_iteration := contact_iteration door_contact.
Definition _handle_window_iteration := contact_iteration window_contact.

(** One iteration of [_handle_rfid]; [read] is what [read_card()] returns
    (it catches every exception itself). *)
Definition _handle_rfid_iteration (read : RFIDStatus * list Z) (now : Time)
    (cam : CamResult) (sm : SM) : SM :=
  let '(status, uid) := read in
  if RFIDStatus_eqb status OK then
    let '((auth_status, role), b) := authenticate_card uid (reader sm) in
    let sm := set_reader b sm in
    let uid_str := String.concat "-" (map pretty uid) in
    let granted := RFIDStatus_eqb auth_status OK in
    let sm := _update_sensor_status "rfid" true None
                (Some [("uid", VStr uid_str); ("authorized", VBool granted);
                       ("role", VOptStr (if granted then role else Some "unauthorized"))])
                true now sm in
    if granted then
      add_log (mkLog LINFO "RFID access granted: %s (%s)"
                 [AStr uid_str; AStr (default "" role)]) sm
    else
      let sm := add_log (mkLog LWARNING "Unauthorized RFID access: %s" [AStr uid_str]) sm in
      _handle_unauthorized_access uid_str now cam sm
  else sm.

(** A poll of one of the four channel workers, with what its sensor gave. *)
Inductive Poll :=
| PMotion (reading : Exc bool)
| PDoor (reading : Exc bool)
| PWindow (reading : Exc bool)
| PRfid (read : RFIDStatus * list Z).

Definition poll_step (p : Poll) (now : Time) (cam : CamResult) (sm : SM) : SM :=
  match p with
  | PMotion r => _handle_motion_iteration r now cam sm
  | PDoor r => _handle_door_iteration r now cam sm
  | PWindow r => _handle_window_iteration r now cam sm
  | PRfid r => _handle_rfid_iteration r now cam sm
  end.

(** Iterations of any workers, one after another. *)
Fixpoint run_polls (ps : list (Poll * Time * CamResult)) (sm : SM) : SM :=
  match ps with
  | [] => sm
  | (p, now, cam) :: ps' => run_polls ps' (poll_step p now cam sm)
  end.

(** The status entry a poll writes. *)
Definition poll_channel (p : Poll) : string :=
  match p with
  | PMotion _ => "motion" | PDoor _ => "door" | PWindow _ => "window" | PRfid _ => "rfid"
  end.

(** Polls that reach an alert handler: motion seen, door or window open,
    a card read whose UID is not in [AUTHORIZED_CARDS]. *)
Definition qualifying (p : Poll) : bool :=
  match p with
  | PMotion (Ok true) | PDoor (Ok true) | PWindow (Ok true) => true
  | PRfid (status, uid) => RFIDStatus_eqb status OK && bool_decide (card_lookup uid = None)
  | _ => false
  end.

(** Polls whose iteration writes the channel's status entry: the contact
    workers always do, the card worker only when a card was read. *)
Definition poll_writes (p : Poll) : bool :=
  match p with
  | PRfid (status, _) => RFIDStatus_eqb status OK
  | _ => true
  end.

Fixpoint count_captures (cs : list Call) : nat :=
  match cs with
  | [] => 0
  | CaptureImage :: cs' => S (count_captures cs')
  | _ :: cs' => count_captures cs'
  end.

Fixpoint count_alerts (cs : list Call) : nat :=
  match cs with
  | [] => 0
  | SendAlert _ :: cs' => S (count_alerts cs')
  | _ :: cs' => count_alerts cs'
  end.

(** *** Handlers of different workers running at the same time

    A handler reads [datetime.now()] and [self._last_event_time] ([Begin]),
    then blocks in [capture_image()] and [record_video()] (10 s or 30 s of
    video) while the other workers run, and finally runs the rest of its
    [try:] block, whose only access to the cooldown state is the closing
    [self._last_event_time = current_time] ([Finish]). No lock guards the
    timestamp. [pending] holds the handler each worker is inside. *)
Inductive Act :=
| Begin (tid : nat) (h : Handler) (now : Time)
| Finish (tid : nat) (cam : CamResult).

Record Conc := mkConc {
  shared : SM;
  pending : gmap nat (Handler * Time)
}.

Definition conc_step (a : Act) (c : Conc) : Conc :=
  match a with
  | Begin tid h now =>
      if cooldown_active (shared c) now
      then mkConc (add_log (mkLog LDEBUG (skip_message h) []) (shared c)) (pending c)
      else mkConc (shared c) (<[tid := (h, now)]> (pending c))
  | Finish tid cam =>
      match pending c !! tid with
      | Some (h, now) => mkConc (dispatch h now cam (shared c)) (delete tid (pending c))
      | None => c
      end
  end.

Fixpoint run_conc (acts : list Act) (c : Conc) : Conc :=
  match acts with
  | [] => c
  | a :: acts' => run_conc acts' (conc_step a c)
  end.

(** Collaborator outcomes used in the scenarios: everything succeeds (no
    upload URL), or [capture_image()] raises. *)
Definition cam_success : CamResult :=
  mkCam (Ok ("image.jpg", None)) (Ok ("video.h264", None)).
Definition cam_capture_fails : CamResult :=
  mkCam (Raised "Camera not initialized") (Ok ("video.h264", None)).
Definition cam_record_fails : CamResult :=
  mkCam (Ok ("image.jpg", None)) (Raised "Camera not initialized").

End Sensors.

(** ** rfid.py: the rest of the driver and of [RFIDReader] *)

Module RFIDDriver.
Import RFID.

Definition Status2Reg : Z := 0x09.
Definition ModeReg : Z := 0x11.
Definition TxControlReg : Z := 0x14.
Definition TxAutoReg : Z := 0x15.
Definition CRCResultRegM : Z := 0x21.
Definition CRCResultRegL : Z := 0x22.
Definition TModeReg : Z := 0x2A.
Definition TPrescalerReg : Z := 0x2B.
Definition TReloadRegL : Z := 0x2C.
Definition TReloadRegH : Z := 0x2D.
Definition DivIrqReg : Z := 0x05.
Definition PCD_RESETPHASE : Z := 0x0F.
Definition PCD_CALCCRC : Z := 0x03.
Definition PICC_REQIDL : Z := 0x26.
Definition PICC_SELECTTAG : Z := 0x93.
Definition PICC_READ : Z := 0x30.
Definition PICC_WRITE : Z := 0xA0.

(** [str(backData)] of a list of ints, as [%s] prints it. *)
Definition py_list_str (l : list Z) : string :=
  "[" ++ String.concat ", " (map pretty l) ++ "]".

Section Driver2.

Variable chip : nat -> Z -> Z.

(** [MFRC522_Reset] *)
Definition MFRC522_Reset : M unit := Write_MFRC522 CommandReg PCD_RESETPHASE.

(** [AntennaOn]:
<<
        temp = self.Read_MFRC522(self.TxControlReg)
        if ~(temp & 0x03):
            self.SetBitMask(self.TxControlReg, 0x03)
>>
    Python's [~x] on an int is [-x - 1] ([Z.lnot]); the test is its
    truthiness (non-zero). *)
Definition AntennaOn : M unit :=
  temp ← Read_MFRC522 chip TxControlReg;
  if negb (Z.lnot (Z.land temp 0x03) =? 0) then SetBitMask chip TxControlReg 0x03
  else mret tt.

(** [AntennaOff] *)
Definition AntennaOff : M unit := ClearBitMask chip TxControlReg 0x03.

(** [MFRC522_Request(reqMode) -> (status, backBits)] *)
Definition MFRC522_Request (reqMode : Z) : M (RFIDStatus * Z) :=
  Write_MFRC522 BitFramingReg 0x07;;
  '(status, backData, backBits) ← MFRC522_ToCard chip PCD_TRANSCEIVE [reqMode];
  if negb (RFIDStatus_eqb status OK) || negb (backBits =? 0x10)
  then mret (ERROR, backBits)
  else mret (status, backBits).

(** The wait loop of [CalculateCRC]:
<<
        for _ in range(0xFF):
            n = self.Read_MFRC522(self.DivIrqReg)
            if n & 0x04:
                break
>> *)
Fixpoint crc_wait (k : nat) : M unit :=
  match k with
  | O => mret tt
  | S k' =>
      n ← Read_MFRC522 chip DivIrqReg;
      if negb (Z.land n 0x04 =? 0) then mret tt else crc_wait k'
  end.

(** [CalculateCRC(data) -> [CRCResultRegL, CRCResultRegM]] *)
Definition CalculateCRC (data : list Z) : M (list Z) :=
  ClearBitMask chip DivIrqReg 0x04;;
  SetBitMask chip FIFOLevelReg 0x80;;
  write_all FIFODataReg data;;
  Write_MFRC522 CommandReg PCD_CALCCRC;;
  crc_wait 255;;
  l ← Read_MFRC522 chip CRCResultRegL;
  m ← Read_MFRC522 chip CRCResultRegM;
  mret [l; m].

(** [MFRC522_SelectTag(serNum) -> int]; [backData[0]] raises [IndexError]
    on an empty list. *)
Definition MFRC522_SelectTag (serNum : list Z) : M (Exc Z) :=
  let buf := [PICC_SELECTTAG; 0x70] ++ serNum in
  crc ← CalculateCRC buf;
  let buf := buf ++ crc in
  '(status, backData, backLen) ← MFRC522_ToCard chip PCD_TRANSCEIVE buf;
  if RFIDStatus_eqb status OK && (backLen =? 0x18) then
    match py_index backData 0 with
    | Ok b => emit (mkLog LINFO "Size: %s" [AInt b]);; mret (Ok b)
    | Raised e => mret (Raised e)
    end
  else mret (Ok 0).

(** [MFRC522_Auth(authMode, blockAddr, sectorKey, serNum) -> status]; the
    [or] short-circuits, so [Status2Reg] is read only after an OK exchange. *)
Definition MFRC522_Auth (authMode blockAddr : Z) (sectorKey serNum : list Z)
    : M RFIDStatus :=
  let buff := ([authMode; blockAddr] ++ sectorKey) ++ serNum in
  '(status, backData, backLen) ← MFRC522_ToCard chip PCD_AUTHENT buff;
  (if negb (RFIDStatus_eqb status OK) then emit (mkLog LERROR "AUTH ERROR!!" [])
   else
     s2 ← Read_MFRC522 chip Status2Reg;
     if Z.land s2 0x08 =? 0 then emit (mkLog LERROR "AUTH ERROR!!" []) else mret tt);;
  mret status.

(** [MFRC522_Read(blockAddr)] *)
Definition MFRC522_Read (blockAddr : Z) : M unit :=
  crc ← CalculateCRC [PICC_READ; blockAddr];
  let recvData := [PICC_READ; blockAddr] ++ crc in
  '(status, backData, backLen) ← MFRC522_ToCard chip PCD_TRANSCEIVE recvData;
  if RFIDStatus_eqb status OK && (length backData =? 16)%nat
  then emit (mkLog LINFO "Sector %s %s" [AInt blockAddr; AStr (py_list_str backData)])
  else emit (mkLog LERROR "Error while reading!" []).

(** [status == RFIDStatus.OK and backLen == 4 and (backData[0] & 0x0F) == 0x0A],
    evaluated left to right. *)
Definition write_ack (status : RFIDStatus) (backData : list Z) (backLen : Z) : Exc bool :=
  if RFIDStatus_eqb status OK && (backLen =? 4) then
    exc_bind (py_index backData 0) (fun b => Ok (Z.land b 0x0F =? 0x0A))
  else Ok false.

(** [MFRC522_Write(blockAddr, writeData)] *)
Definition MFRC522_Write (blockAddr : Z) (writeData : list Z) : M (Exc unit) :=
  crc ← CalculateCRC [PICC_WRITE; blockAddr];
  let buff := [PICC_WRITE; blockAddr] ++ crc in
  '(status, backData, backLen) ← MFRC522_ToCard chip PCD_TRANSCEIVE buff;
  match write_ack status backData backLen with
  | Raised e => mret (Raised e)
  | Ok true =>
      crc' ← CalculateCRC writeData;
      let buf := writeData ++ crc' in
      '(status', backData', backLen') ← MFRC522_ToCard chip PCD_TRANSCEIVE buf;
      match write_ack status' backData' backLen' with
      | Raised e => mret (Raised e)
      | Ok true => emit (mkLog LINFO "Data written" []);; mret (Ok tt)
      | Ok false => emit (mkLog LERROR "Error while writing" []);; mret (Ok tt)
      end
  | Ok false => emit (mkLog LERROR "Error while writing" []);; mret (Ok tt)
  end.

(** [RFIDReader.read_card] on the hardware reader. The only exception its
    body can meet here is one from [MFRC522_Anticoll]. *)
Definition read_card : M (RFIDStatus * list Z) :=
  '(status, tag_type) ← MFRC522_Request PICC_REQIDL;
  if RFIDStatus_eqb status OK then
    r ← MFRC522_Anticoll chip;
    match r with
    | Raised e =>
        emit (mkLog LERROR "Error reading card: %s" [AStr e]);;
        mret (ERROR, [])
    | Ok (status', uid) =>
        if RFIDStatus_eqb status' OK then mret (status', uid) else mret (status', [])
    end
  else mret (status, []).

(** [RFIDReader.write_card_data(block_addr, data) -> bool] *)
Definition write_card_data (block_addr : Z) (data : list Z) : M bool :=
  r ← MFRC522_Write block_addr data;
  match r with
  | Ok _ => mret true
  | Raised e => emit (mkLog LERROR "Error writing card data: %s" [AStr e]);; mret false
  end.

End Driver2.

(** *** [MockMFRC522], used off the Raspberry Pi

    [random.random()] returns [k / 2^53] for an integer [0 <= k < 2^53];
    the float literals [0.3] and [0.8] are [5404319552844595 / 2^54] and
    [7205759403792794 / 2^53]. One draw of the mock's random choices: *)
Record MockDraw := mkDraw {
  detect_k : Z;           (** first [random.random()], as [k] *)
  authorized_k : Z;       (** second [random.random()], as [k] *)
  choice_index : nat;     (** index picked by [random.choice] *)
  random_bytes : list Z   (** the five [random.randint(0, 255)] *)
}.

(** [self._authorized_uids = list(AUTHORIZED_CARDS.keys())]; the order of
    the list only matters for which key an index picks. *)
Definition _authorized_uids : list UIDKey := map fst (map_to_list AUTHORIZED_CARDS).

Definition uid_list (k : UIDKey) : list Z :=
  let '(u0, u1, u2, u3, u4) := k in [u0; u1; u2; u3; u4].

(** [MockMFRC522.MFRC522_Anticoll] *)
Definition Mock_Anticoll (d : MockDraw) : RFIDStatus * list Z :=
  if 2 * detect_k d <? 5404319552844595 then
    if authorized_k d <? 7205759403792794 then
      match _authorized_uids !! choice_index d with
      | Some k => (OK, uid_list k)
      | None => (ERROR, [])   (* unreachable: the index is drawn below the length *)
      end
    else (OK, random_bytes d)
  else (NO_TAG, []).

(** [RFIDReader.read_card] over [MockMFRC522], whose [MFRC522_Request]
    always returns [(RFIDStatus.OK, 0x10)]. *)
Definition mock_read_card (d : MockDraw) : RFIDStatus * list Z :=
  let '(status, tag_type) := (OK, 0x10) in
  if RFIDStatus_eqb status OK then
    let '(status', uid) := Mock_Anticoll d in
    if RFIDStatus_eqb status' OK then (status', uid) else (status', [])
  else (status, []).

(** What a draw can be: [random.random()] in [[0, 1)], an index below the
    list's length, five bytes from [randint(0, 255)]. *)
Definition valid_draw (d : MockDraw) : Prop :=
  0 <= detect_k d < 2 ^ 53 /\ 0 <= authorized_k d < 2 ^ 53 /\
  (choice_index d < length _authorized_uids)%nat /\
  length (random_bytes d) = 5%nat /\ Forall (fun b => 0 <= b <= 255) (random_bytes d).

(** A chip for examples: every exchange completes at once, the FIFO holds two
    bytes during the first ten reads and four after, and reads of the FIFO
    data register return the read's index. *)
Definition demo_chip (k : nat) (a : Z) : Z :=
  if a =? CommIrqReg then 0x30
  else if a =? FIFOLevelReg then (if (k <? 10)%nat then 2 else 4)
  else if a =? FIFODataReg then Z.of_nat k else 0.

End RFIDDriver.

(** ** sensors.py: status export, self-test and worker threads *)

Module SensorsMore.
Import RFID Sensors.

(** Values of [SensorStatus.to_dict]; [JIso t] is [t.isoformat()]. *)
Inductive JVal :=
| JStr (s : string)
| JBool (b : bool)
| JInt (z : Z)
| JNull
| JIso (t : Time)
| JData (d : Data).

Definition jopt_str (o : option string) : JVal :=
  match o with Some s => JStr s | None => JNull end.

(** [SensorStatus.to_dict]; a [datetime] is always truthy. *)
Definition to_dict (s : SensorStatus) : list (string * JVal) :=
  [("name", JStr (name s));
   ("is_active", JBool (is_active s));
   ("last_check", JIso (last_check s));
   ("error", jopt_str (error s));
   ("data", match data s with Some d => JData d | None => JNull end);
   ("location", jopt_str (location s));
   ("type", JStr (type s));
   ("firmware_version", jopt_str (firmware_version s));
   ("last_event_timestamp",
      match last_event_timestamp s with Some t => JIso t | None => JNull end);
   ("event_count", JInt (event_count s))].

(** [SensorManager.get_sensor_status] *)
Definition get_sensor_status (sm : SM) : gmap string (list (string * JVal)) :=
  to_dict <$> sensor_status sm.

(** The two werkzeug exceptions the route raises, and their [str]. *)
Inductive HTTPException :=
| NotFound (description : string)
| InternalServerError (description : string).

Definition http_str (e : HTTPException) : string :=
  match e with
  | NotFound d => "404 Not Found: " ++ d
  | InternalServerError d => "500 Internal Server Error: " ++ d
  end.

(** The body of the [/api/v1/sensors/<sensor_type>] route of api_server.py
    once [sensor_manager] is set ([inl]: the entry sent by [jsonify];
    [inr]: the exception leaving the view). The [try:] block's
    [except Exception] also catches the [NotFound] raised inside it. The
    [logger.error] call of the handler is left out. *)
Definition get_sensor_data (sensor_type : string) (sm : SM)
    : list (string * JVal) + HTTPException :=
  let attempt :=
    let status_data := get_sensor_status sm in
    match status_data !! sensor_type with
    | Some d => inl d
    | None =>
        match (if String.eqb sensor_type "door" then status_data !! "door_lock"%string
               else None) with
        | Some d => inl d
        | None => inr (NotFound ("Sensor type '" ++ sensor_type
                                  ++ "' not found or status unavailable."))
        end
    end in
  match attempt with
  | inl d => inl d
  | inr e => inr (InternalServerError ("Failed to get sensor data: " ++ http_str e))
  end.

(** *** [run_sensor_test] *)

Definition py_bool_str (b : bool) : string := if b then "True" else "False".

Definition RFIDStatus_name (s : RFIDStatus) : string :=
  match s with OK => "OK" | NO_TAG => "NO_TAG" | ERROR => "ERROR" end.

(** [RFIDStatus.<attr>]: a name that is not a member raises [AttributeError]. *)
Definition RFIDStatus_attr (attr : string) : Exc RFIDStatus :=
  if String.eqb attr "OK" then Ok OK
  else if String.eqb attr "NO_TAG" then Ok NO_TAG
  else if String.eqb attr "ERROR" then Ok ERROR
  else Raised ("type object 'RFIDStatus' has no attribute '" ++ attr ++ "'").

(** Calling [RFIDReader.read_card], whose only parameter is [self], with
    keyword arguments [kwargs]; [result] is what the call returns when it
    is made correctly ([read_card] catches its own exceptions). *)
Definition call_read_card (kwargs : list string) (result : RFIDStatus * list Z)
    : Exc (RFIDStatus * list Z) :=
  match kwargs with
  | [] => Ok result
  | k :: _ => Raised ("RFIDReader.read_card() got an unexpected keyword argument '"
                      ++ k ++ "'")
  end.

Record TestState := mkTS {
  results : list (string * (string * string));
  all_ok : bool;
  tlogs : list LogEntry
}.

Definition put_result (k : string) (status details : string) (ts : TestState) : TestState :=
  mkTS (results ts ++ [(k, (status, details))]) (all_ok ts) (tlogs ts).
Definition tlog (e : LogEntry) (ts : TestState) : TestState :=
  mkTS (results ts) (all_ok ts) (tlogs ts ++ [e]).
Definition fail_test (ts : TestState) : TestState :=
  mkTS (results ts) false (tlogs ts).

(** [SensorManager.run_sensor_test() -> {"summary", "results"}], given what
    [check_motion()], the two [check_state()], [read_card()] and the
    camera's [get_status()] (its ["is_active"] and ["error"]) give. *)
Definition run_sensor_test (motion door window : Exc bool) (rfid_read : RFIDStatus * list Z)
    (cam_status : Exc (bool * option string))
    : list LogEntry * (string * list (string * (string * string))) :=
  let ts := mkTS [] true [mkLog LINFO "Running sensor test..." []] in
  let ts :=
    match motion with
    | Ok st =>
        tlog (mkLog LINFO "Motion sensor test: OK" [])
          (put_result "motion" "ok" ("Current state: " ++ py_bool_str st) ts)
    | Raised e =>
        fail_test (tlog (mkLog LERROR "Motion sensor test failed: {e}" [AStr e])
          (put_result "motion" "error" e ts))
    end in
  let ts :=
    match door with
    | Ok st =>
        tlog (mkLog LINFO "Door sensor test: OK" [])
          (put_result "door" "ok" ("Current state: " ++ if st then "open" else "closed") ts)
    | Raised e =>
        fail_test (tlog (mkLog LERROR "Door sensor test failed: {e}" [AStr e])
          (put_result "door" "error" e ts))
    end in
  let ts :=
    match window with
    | Ok st =>
        tlog (mkLog LINFO "Window sensor test: OK" [])
          (put_result "window" "ok" ("Current state: " ++ if st then "open" else "closed") ts)
    | Raised e =>
        fail_test (tlog (mkLog LERROR "Window sensor test failed: {e}" [AStr e])
          (put_result "window" "error" e ts))
    end in
  let ts :=
    (* status, _ = self._rfid_reader.read_card(timeout=0.5)
       if status in [RFIDStatus.OK, RFIDStatus.NO_CARD]: *)
    match exc_bind (call_read_card ["timeout"] rfid_read) (fun '(status, _) =>
          exc_bind (RFIDStatus_attr "OK") (fun a =>
          exc_bind (RFIDStatus_attr "NO_CARD") (fun b => Ok (status, [a; b])))) with
    | Ok (status, l) =>
        if existsb (RFIDStatus_eqb status) l then
          tlog (mkLog LINFO "RFID reader test: OK" [])
            (put_result "rfid" "ok" "Reader responsive" ts)
        else
          tlog (mkLog LWARNING "RFID reader test status: {status.name}"
                  [AStr (RFIDStatus_name status)])
            (put_result "rfid" "error" ("Reader status: " ++ RFIDStatus_name status) ts)
    | Raised e =>
        fail_test (tlog (mkLog LERROR "RFID reader test failed: {e}" [AStr e])
          (put_result "rfid" "error" e ts))
    end in
  let ts :=
    match cam_status with
    | Ok (active, err) =>
        if active then
          tlog (mkLog LINFO "Camera test: OK" []) (put_result "camera" "ok" "Camera active" ts)
        else
          (* cam_status.get("error") or "Camera inactive" *)
          let d := match err with
                   | Some s => if String.eqb s "" then "Camera inactive" else s
                   | None => "Camera inactive"
                   end in
          fail_test (tlog (mkLog LERROR "Camera test failed: {...}" [AStr d])
            (put_result "camera" "error" d ts))
    | Raised e =>
        fail_test (tlog (mkLog LERROR "Camera test failed: {e}" [AStr e])
          (put_result "camera" "error" e ts))
    end in
  let ts :=
    tlog (mkLog LINFO "Door Lock Test: Status logged by lock/unlock functions." [])
      (put_result "door_lock" "info" "Test not fully implemented (check logs for state)" ts) in
  let summary := if all_ok ts then "All tests passed" else "One or more tests failed" in
  let ts := tlog (mkLog LINFO "Sensor test completed. Summary: {summary}" [AStr summary]) ts in
  (tlogs ts, (summary, results ts)).

(** *** Worker threads: [start], [stop], [is_healthy]

    [live] lists every thread still executing a worker loop, including
    threads no longer in [self._threads]. *)
Record Worker := mkWorker { wid : nat; wname : string }.

Record Life := mkLife {
  running : bool;
  threads : list Worker;
  live : list Worker;
  next_wid : nat;
  life_logs : list LogEntry
}.

(** [SensorManager.__init__]: [self._threads = []], [self._running = True]. *)
Definition life_init : Life := mkLife true [] [] 0 [].

Definition is_alive (l : Life) (w : Worker) : bool :=
  existsb (fun w' => Nat.eqb (wid w') (wid w)) (live l).

Definition llog (e : LogEntry) (l : Life) : Life :=
  mkLife (running l) (threads l) (live l) (next_wid l) (life_logs l ++ [e]).

Definition end_thread (w : Worker) (l : Life) : Life :=
  mkLife (running l) (threads l) (List.filter (fun w' => negb (Nat.eqb (wid w') (wid w))) (live l))
    (next_wid l) (life_logs l).

(** The join loop of [stop]; [exits w] tells whether the worker reaches its
    [while self._running:] test (and so ends) within the 5 s timeout. *)
Fixpoint join_all (exits : Worker -> bool) (ws : list Worker) (l : Life) : Life :=
  match ws with
  | [] => l
  | w :: ws' =>
      let l :=
        if is_alive l w then
          let l := llog (mkLog LDEBUG "Waiting for thread {thread.name} to join..."
                           [AStr (wname w)]) l in
          if exits w then
            llog (mkLog LDEBUG "Thread {thread.name} joined successfully." [AStr (wname w)])
              (end_thread w l)
          else
            llog (mkLog LWARNING "Thread {thread.name} did not join within {thread_join_timeout}s."
                    [AStr (wname w)]) l
        else llog (mkLog LDEBUG "Thread {thread.name} was already finished." [AStr (wname w)]) l in
      join_all exits ws' l
  end.

(** [SensorManager.stop] *)
Definition stop (exits : Worker -> bool) (l : Life) : Life :=
  if negb (running l) then
    llog (mkLog LINFO "Sensor threads already stopping or stopped." []) l
  else
    let l := llog (mkLog LINFO "Stopping all sensor threads..." [])
               (mkLife false (threads l) (live l) (next_wid l) (life_logs l)) in
    let threads_to_join := threads l in
    let l := mkLife (running l) [] (live l) (next_wid l) (life_logs l) in
    let l := join_all exits threads_to_join l in
    llog (mkLog LINFO "Finished attempting to stop sensor threads." []) l.

(** [SensorManager.start]; new threads get fresh identities. *)
Definition start (exits : Worker -> bool) (l : Life) : Life :=
  let l :=
    match threads l with
    | [] => l
    | _ :: _ =>
        stop exits (llog (mkLog LWARNING
          "Sensor threads already started or not cleaned up properly. Attempting restart." []) l)
    end in
  let n := next_wid l in
  let ws := [mkWorker n "MotionThread"; mkWorker (S n) "DoorThread";
             mkWorker (S (S n)) "WindowThread"; mkWorker (S (S (S n))) "RFIDThread"] in
  mkLife true ws (live l ++ ws) (n + 4)
    (life_logs l ++ [mkLog LINFO "All sensor threads started successfully" []]).

(** [SensorManager.is_healthy] *)
Fixpoint check_threads (ws : list Worker) (l : Life) : bool * Life :=
  match ws with
  | [] => (true, l)
  | w :: ws' =>
      if is_alive l w then check_threads ws' l
      else (false, llog (mkLog LERROR "Sensor thread {thread.name} is not alive!" [AStr (wname w)]) l)
  end.

Definition is_healthy (l : Life) : bool * Life :=
  if negb (running l) then (false, l) else check_threads (threads l) l.

(** A worker at its [while self._running:] test: with the flag down it
    leaves the loop and its thread ends. *)
Definition worker_check (w : Worker) (l : Life) : Life :=
  if is_alive l w && negb (running l) then end_thread w l else l.

Inductive LifeEvent :=
| EStart (exits : Worker -> bool)
| EStop (exits : Worker -> bool)
| ECheck (w : Worker).

Definition life_step (ev : LifeEvent) (l : Life) : Life :=
  match ev with
  | EStart exits => start exits l
  | EStop exits => stop exits l
  | ECheck w => worker_check w l
  end.

Fixpoint run_life (evs : list LifeEvent) (l : Life) : Life :=
  match evs with
  | [] => l
  | ev :: evs' => run_life evs' (life_step ev l)
  end.

(** *** Counting events over runs of polls *)

(** The channel whose event counter a poll increments, if any. *)
Definition poll_event_on (k : string) (p : Poll) : bool :=
  match p with
  | PMotion (Ok true) => String.eqb k "motion"
  | PDoor (Ok true) => String.eqb k "door"
  | PWindow (Ok true) => String.eqb k "window"
  | PRfid (status, _) => RFIDStatus_eqb status OK && String.eqb k "rfid"
  | _ => false
  end.

Fixpoint count_events (k : string) (ps : list (Poll * Time * CamResult)) : nat :=
  match ps with
  | [] => O
  | (p, _, _) :: ps' => ((if poll_event_on k p then 1 else 0) + count_events k ps')%nat
  end.

(** [event_count] of an entry, [0] when there is none. *)
Definition event_count_of (sm : SM) (k : string) : Z :=
  match sensor_status sm !! k with Some st => event_count st | None => 0 end.

(** The fields of each entry that no update writes. *)
Definition statics (sm : SM) : gmap string (string * string * option string * option string) :=
  (fun st => (name st, type st, location st, firmware_version st)) <$> sensor_status sm.

(** The five entries the worker loops and handlers write. *)
Definition channels_present (sm : SM) : Prop :=
  is_Some (sensor_status sm !! "motion"%string) /\ is_Some (sensor_status sm !! "door"%string) /\
  is_Some (sensor_status sm !! "window"%string) /\ is_Some (sensor_status sm !! "rfid"%string) /\
  is_Some (sensor_status sm !! "camera"%string).

Definition worker_names : list string :=
  ["MotionThread"; "DoorThread"; "WindowThread"; "RFIDThread"]%string.

(** Every worker known to a state has an identity below [next_wid], one of
    the four names, and is the only worker with its identity. *)
Definition life_inv (l : Life) : Prop :=
  forall x, In x (threads l ++ live l) ->
    (wid x < next_wid l)%nat /\ In (wname x) worker_names /\
    forall y, In y (threads l ++ live l) -> wid x = wid y -> x = y.

End SensorsMore.

(** ** Proofs about the card reader *)

Module RFIDProofs.
Import RFID.

Ltac unfold_M := unfold mbind, M_bind, mret, M_ret, Read_MFRC522, Write_MFRC522, emit in *.

Lemma POLL_CEILING_eq : POLL_CEILING = 2000%nat.
Proof. reflexivity. Qed.

Local Opaque POLL_CEILING.

Section Polling.
Variable chip : nat -> Z -> Z.

(** Each iteration of the polling loop costs exactly one read transfer;
    the loop never outlives its counter. *)
Lemma poll_irq_reads (i : nat) (w n : Z) (s : Bus) :
  (snd (fst (poll_irq chip i w n s)) <= i)%nat /\
  nreads (snd (poll_irq chip i w n s))
    = (nreads s + (i - snd (fst (poll_irq chip i w n s))))%nat.
Proof.
  revert n s. induction i as [|i IH]; intros n s; cbn; unfold_M; cbn.
  - lia.
  - destruct (negb (Z.land (chip (nreads s) CommIrqReg) 1 =? 0)
              || negb (Z.land (chip (nreads s) CommIrqReg) w =? 0)); cbn.
    + lia.
    + destruct (IH (chip (nreads s) CommIrqReg)
                  (mkBus (frames s ++ [[Z.lor (Z.land (Z.shiftl CommIrqReg 1) 126) 128; 0]])
                         (S (nreads s)) (log s))) as [H1 H2].
      cbn in H2. lia.
Qed.

(** If none of the values read while polling carries the timer bit or an
    awaited bit, the counter runs down to zero. *)
Lemma poll_irq_exhausted (i : nat) (w n : Z) (s : Bus) :
  (forall k, (k < i)%nat ->
     Z.land (chip (nreads s + k)%nat CommIrqReg) 0x01 = 0 /\
     Z.land (chip (nreads s + k)%nat CommIrqReg) w = 0) ->
  snd (fst (poll_irq chip i w n s)) = O.
Proof.
  revert n s. induction i as [|i IH]; intros n s Hk; cbn; unfold_M; cbn; [reflexivity|].
  destruct (Hk O ltac:(lia)) as [H1 H2]. rewrite Nat.add_0_r in H1, H2.
  rewrite H1, H2. cbn. apply IH. intros k Hlt. cbn.
  replace (S (nreads s + k)) with (nreads s + S k)%nat by lia.
  apply Hk. lia.
Qed.

Lemma ToCard_unfold (command : Z) (sendData : list Z) (s : Bus) :
  MFRC522_ToCard chip command sendData s =
  let s1 := snd (ToCard_setup chip command sendData s) in
  let r := poll_irq chip POLL_CEILING (snd (irq_masks command)) 0 s1 in
  ToCard_finish chip command (fst (fst r)) (snd (fst r)) (snd r).
Proof.
  unfold MFRC522_ToCard, mbind, M_bind, mret, M_ret.
  destruct (ToCard_setup chip command sendData s) as [[] s1]. cbn.
  destruct (poll_irq chip POLL_CEILING (snd (irq_masks command)) 0 s1) as [[n i] s2].
  reflexivity.
Qed.

Lemma ToCard_finish_exhausted (command n : Z) (s : Bus) :
  fst (fst (fst (ToCard_finish chip command n O s))) = ERROR.
Proof.
  unfold ToCard_finish. destruct (irq_masks command) as [irqEn w]. reflexivity.
Qed.

End Polling.

(** C8. Every exchange of [MFRC522_ToCard] polls the interrupt register at
    most 2000 times (one read transfer per poll); when the ceiling is used
    up the call returns [RFIDStatus.ERROR]; and when no polled value has
    the timer bit or the awaited interrupt bit, the ceiling is used up. *)
Theorem ToCard_poll_ceiling (chip : nat -> Z -> Z) (command : Z) (sendData : list Z) (s : Bus) :
  let s1 := snd (ToCard_setup chip command sendData s) in
  let r := poll_irq chip POLL_CEILING (snd (irq_masks command)) 0 s1 in
  (nreads (snd r) <= nreads s1 + 2000)%nat /\
  (snd (fst r) = O -> fst (fst (fst (MFRC522_ToCard chip command sendData s))) = ERROR) /\
  ((forall k, (k < 2000)%nat ->
      Z.land (chip (nreads s1 + k)%nat CommIrqReg) 0x01 = 0 /\
      Z.land (chip (nreads s1 + k)%nat CommIrqReg) (snd (irq_masks command)) = 0) ->
   fst (fst (fst (MFRC522_ToCard chip command sendData s))) = ERROR).
Proof.
  cbv zeta.
  set (s1 := snd (ToCard_setup chip command sendData s)).
  destruct (poll_irq_reads chip POLL_CEILING (snd (irq_masks command)) 0 s1) as [Hle Hn].
  repeat split.
  - rewrite Hn. rewrite POLL_CEILING_eq in *. lia.
  - intros H0. rewrite ToCard_unfold. cbv zeta. fold s1. rewrite H0.
    apply ToCard_finish_exhausted.
  - intros Hk. rewrite ToCard_unfold. cbv zeta. fold s1.
    rewrite (poll_irq_exhausted chip POLL_CEILING _ 0 s1).
    + apply ToCard_finish_exhausted.
    + intros k Hk'. rewrite POLL_CEILING_eq in Hk'. now apply Hk.
Qed.

Lemma Anticoll_unfold (chip : nat -> Z -> Z) (s : Bus) :
  fst (MFRC522_Anticoll chip s) =
  anticoll_check (fst (fst (fst (anticoll_exchange chip s))))
                 (snd (fst (fst (anticoll_exchange chip s)))).
Proof.
  unfold MFRC522_Anticoll, mbind, M_bind, mret, M_ret.
  destruct (anticoll_exchange chip s) as [[[st bd] bb] s']. reflexivity.
Qed.

(** C1. Whenever the anti-collision exchange hands back a 5-byte candidate,
    [MFRC522_Anticoll] returns normally (no exception) with those bytes, and
    its status is OK exactly when the exchange succeeded and the XOR of the
    first four bytes equals the fifth; on a checksum mismatch the status is
    never OK (ERROR for a successful exchange). *)
Theorem anticoll_accepts_iff_checksum (chip : nat -> Z -> Z) (s : Bus)
    (st : RFIDStatus) (b0 b1 b2 b3 b4 bb : Z) :
  fst (anticoll_exchange chip s) = (st, [b0; b1; b2; b3; b4], bb) ->
  exists st',
    fst (MFRC522_Anticoll chip s) = Ok (st', [b0; b1; b2; b3; b4]) /\
    (st' = OK <-> st = OK /\ Z.lxor (Z.lxor (Z.lxor (Z.lxor 0 b0) b1) b2) b3 = b4) /\
    (Z.lxor (Z.lxor (Z.lxor (Z.lxor 0 b0) b1) b2) b3 <> b4 -> st' <> OK) /\
    (st = OK -> Z.lxor (Z.lxor (Z.lxor (Z.lxor 0 b0) b1) b2) b3 <> b4 -> st' = ERROR).
Proof.
  intros Hx. rewrite Anticoll_unfold, Hx. cbn [fst snd].
  destruct st; cbn.
  - destruct (Z.eqb_spec (Z.lxor (Z.lxor (Z.lxor (Z.lxor 0 b0) b1) b2) b3) b4) as [E|E];
      cbn; eexists; (split; [reflexivity|]); repeat split;
      try tauto; try discriminate; try congruence.
  - eexists; (split; [reflexivity|]); repeat split; try tauto; try discriminate;
      intros []; discriminate.
  - eexists; (split; [reflexivity|]); repeat split; try tauto; try discriminate;
      intros []; discriminate.
Qed.

Lemma anticoll_accepts_iff_checksum_witness :
  exists st',
    fst (MFRC522_Anticoll
           (fun k a => if a =? 4 then 0x30 else if a =? 0x0B then 5
                       else if a =? 0x0A then Z.of_nat k else 0)
           (mkBus [] 0 [])) = Ok (st', [8; 9; 10; 11; 12]) /\
    (st' = OK <-> OK = OK /\ Z.lxor (Z.lxor (Z.lxor (Z.lxor 0 8) 9) 10) 11 = 12) /\
    (Z.lxor (Z.lxor (Z.lxor (Z.lxor 0 8) 9) 10) 11 <> 12 -> st' <> OK) /\
    (OK = OK -> Z.lxor (Z.lxor (Z.lxor (Z.lxor 0 8) 9) 10) 11 <> 12 -> st' = ERROR).
Proof.
  apply (anticoll_accepts_iff_checksum _ _ OK 8 9 10 11 12 40).
  vm_compute. reflexivity.
Defined.

(** C2. The admin card [(5,74,28,185,234)] is granted with role ["admin"];
    the card [(1,2,3,4,5)], absent from [AUTHORIZED_CARDS], is denied with
    no role. *)
Theorem authenticate_card_scenarios (s : Bus) :
  fst (authenticate_card [5; 74; 28; 185; 234] s) = (OK, Some "admin"%string) /\
  fst (authenticate_card [1; 2; 3; 4; 5] s) = (ERROR, None).
Proof. split; reflexivity. Qed.

Lemma authenticate_card_in_len5 (cards : gmap UIDKey CardInfo) (u0 u1 u2 u3 u4 : Z) (s : Bus) :
  fst (authenticate_card_in cards [u0; u1; u2; u3; u4] s) =
  match cards !! (u0, u1, u2, u3, u4) with
  | Some info => (OK, Some (role info))
  | None => (ERROR, None)
  end /\
  frames (snd (authenticate_card_in cards [u0; u1; u2; u3; u4] s)) = frames s /\
  nreads (snd (authenticate_card_in cards [u0; u1; u2; u3; u4] s)) = nreads s.
Proof.
  unfold authenticate_card_in. cbn. unfold_M.
  destruct (cards !! (u0, u1, u2, u3, u4)); cbn; auto.
Qed.

Lemma authenticate_card_in_badlen (cards : gmap UIDKey CardInfo) (uid : list Z) (s : Bus) :
  length uid <> 5%nat ->
  fst (authenticate_card_in cards uid s) = (ERROR, None) /\
  frames (snd (authenticate_card_in cards uid s)) = frames s /\
  nreads (snd (authenticate_card_in cards uid s)) = nreads s.
Proof.
  intros Hl. unfold authenticate_card_in.
  destruct (Nat.eqb_spec (length uid) 5); [contradiction|]. cbn. unfold_M. cbn. auto.
Qed.

Lemma authenticate_card_result (uid : list Z) (s : Bus) :
  fst (authenticate_card uid s) =
  match card_lookup uid with
  | Some info => (OK, Some (role info))
  | None => (ERROR, None)
  end.
Proof.
  unfold authenticate_card.
  destruct (decide (length uid = 5%nat)) as [Hl|Hl].
  - destruct uid as [|u0 [|u1 [|u2 [|u3 [|u4 [|u5 uid]]]]]]; cbn in Hl; try lia.
    apply authenticate_card_in_len5.
  - rewrite (proj1 (authenticate_card_in_badlen AUTHORIZED_CARDS uid s Hl)).
    destruct uid as [|u0 [|u1 [|u2 [|u3 [|u4 [|u5 uid]]]]]]; cbn in Hl |- *; try reflexivity; lia.
Qed.

(** C3. [authenticate_card] is a function of the UID alone: on any two bus
    states it gives the same [(status, role)]; it sends no SPI frame and
    does no read transfer (only log lines are added); a UID that is not a
    key of the table is denied with no role, and a key is granted with its
    role. *)
Theorem authenticate_card_pure (uid : list Z) (s1 s2 : Bus) :
  fst (authenticate_card uid s1) = fst (authenticate_card uid s2) /\
  frames (snd (authenticate_card uid s1)) = frames s1 /\
  nreads (snd (authenticate_card uid s1)) = nreads s1 /\
  (card_lookup uid = None -> fst (authenticate_card uid s1) = (ERROR, None)) /\
  (forall info, card_lookup uid = Some info ->
     fst (authenticate_card uid s1) = (OK, Some (role info))).
Proof.
  unfold authenticate_card.
  destruct (decide (length uid = 5%nat)) as [Hl|Hl].
  - destruct uid as [|u0 [|u1 [|u2 [|u3 [|u4 [|u5 uid]]]]]]; cbn in Hl; try lia.
    destruct (authenticate_card_in_len5 AUTHORIZED_CARDS u0 u1 u2 u3 u4 s1) as (A1 & B1 & C1).
    destruct (authenticate_card_in_len5 AUTHORIZED_CARDS u0 u1 u2 u3 u4 s2) as (A2 & _ & _).
    rewrite A1, A2. cbn [card_lookup].
    repeat split; auto.
    + intros ->. reflexivity.
    + intros info ->. reflexivity.
  - destruct (authenticate_card_in_badlen AUTHORIZED_CARDS uid s1 Hl) as (A1 & B1 & C1).
    destruct (authenticate_card_in_badlen AUTHORIZED_CARDS uid s2 Hl) as (A2 & _ & _).
    rewrite A1, A2. repeat split; auto.
    intros info Hc. exfalso.
    destruct uid as [|u0 [|u1 [|u2 [|u3 [|u4 [|u5 uid]]]]]]; cbn in Hc, Hl;
      try discriminate; lia.
Qed.

Lemma authenticate_card_pure_witness :
  (card_lookup [1; 2; 3; 4; 5] = None ->
   fst (authenticate_card [1; 2; 3; 4; 5] (mkBus [] 0 [])) = (ERROR, None)) /\
  fst (authenticate_card [20; 38; 121; 207; 132] (mkBus [] 0 []))
    = (OK, Some (role (mkCardInfo "Card C" "maintenance"))).
Proof.
  split.
  - apply (authenticate_card_pure [1; 2; 3; 4; 5] (mkBus [] 0 []) (mkBus [] 0 [])).
  - apply (authenticate_card_pure [20; 38; 121; 207; 132] (mkBus [] 0 []) (mkBus [] 0 [])).
    vm_compute. reflexivity.
Defined.

(** C4. Whatever table is consulted, a UID list whose length is not 5 is
    denied with [RFIDStatus.ERROR] and no role, without touching the bus. *)
Theorem authenticate_card_rejects_bad_length
    (cards : gmap UIDKey CardInfo) (uid : list Z) (s : Bus) :
  length uid <> 5%nat ->
  fst (authenticate_card_in cards uid s) = (ERROR, None) /\
  frames (snd (authenticate_card_in cards uid s)) = frames s /\
  nreads (snd (authenticate_card_in cards uid s)) = nreads s.
Proof. apply authenticate_card_in_badlen. Qed.

Lemma authenticate_card_rejects_bad_length_witness :
  fst (authenticate_card [5; 74; 28; 185] (mkBus [] 0 [])) = (ERROR, None).
Proof.
  apply (authenticate_card_rejects_bad_length AUTHORIZED_CARDS [5; 74; 28; 185] (mkBus [] 0 [])).
  cbn. lia.
Defined.

Lemma ToCard_poll_ceiling_witness :
  fst (fst (fst (MFRC522_ToCard (fun _ _ => 0) PCD_TRANSCEIVE [PICC_ANTICOLL; 0x20]
                                (mkBus [] 0 [])))) = ERROR.
Proof.
  apply (ToCard_poll_ceiling (fun _ _ => 0) PCD_TRANSCEIVE [PICC_ANTICOLL; 0x20] (mkBus [] 0 [])).
  intros k _. split; reflexivity.
Defined.

End RFIDProofs.

(** ** Proofs about the sensor manager *)

Module SensorProofs.
Import RFID Sensors.

Lemma count_captures_app (l1 l2 : list Call) :
  count_captures (l1 ++ l2) = (count_captures l1 + count_captures l2)%nat.
Proof. induction l1 as [|[] l1 IH]; cbn; lia. Qed.

Lemma count_alerts_app (l1 l2 : list Call) :
  count_alerts (l1 ++ l2) = (count_alerts l1 + count_alerts l2)%nat.
Proof. induction l1 as [|[] l1 IH]; cbn; lia. Qed.

Section Update.
Context (n : string) (a : bool) (e : option string) (d : option Data)
        (ev : bool) (now : Time).

Lemma update_last (sm : SM) :
  last_event_time (_update_sensor_status n a e d ev now sm) = last_event_time sm.
Proof. unfold _update_sensor_status. destruct (sensor_status sm !! n); reflexivity. Qed.

Lemma update_cooldown (sm : SM) :
  event_cooldown (_update_sensor_status n a e d ev now sm) = event_cooldown sm.
Proof. unfold _update_sensor_status. destruct (sensor_status sm !! n); reflexivity. Qed.

Lemma update_calls (sm : SM) :
  calls (_update_sensor_status n a e d ev now sm) = calls sm.
Proof. unfold _update_sensor_status. destruct (sensor_status sm !! n); reflexivity. Qed.

Lemma update_reader (sm : SM) :
  reader (_update_sensor_status n a e d ev now sm) = reader sm.
Proof. unfold _update_sensor_status. destruct (sensor_status sm !! n); reflexivity. Qed.

Lemma update_lookup_other (sm : SM) (k : string) :
  k <> n ->
  sensor_status (_update_sensor_status n a e d ev now sm) !! k = sensor_status sm !! k.
Proof.
  intros Hk. unfold _update_sensor_status.
  destruct (sensor_status sm !! n); cbn; apply lookup_insert_ne; congruence.
Qed.

Lemma update_lookup_self (sm : SM) :
  exists st, sensor_status (_update_sensor_status n a e d ev now sm) !! n = Some st /\
    is_active st = a /\ last_check st = now /\ error st = e /\ data st = d.
Proof.
  unfold _update_sensor_status.
  destruct (sensor_status sm !! n); cbn; rewrite lookup_insert_eq; eexists; eauto.
Qed.

Lemma update_set_last (L : Time) (sm : SM) :
  _update_sensor_status n a e d ev now (set_last_event_time L sm)
  = set_last_event_time L (_update_sensor_status n a e d ev now sm).
Proof.
  unfold _update_sensor_status. cbn. destruct (sensor_status sm !! n); reflexivity.
Qed.

End Update.

Lemma add_log_set_last (L : Time) (en : LogEntry) (sm : SM) :
  add_log en (set_last_event_time L sm) = set_last_event_time L (add_log en sm).
Proof. reflexivity. Qed.

Lemma dispatch_lookup_other (h : Handler) (now : Time) (cam : CamResult) (sm : SM) (k : string) :
  k <> "camera"%string ->
  sensor_status (dispatch h now cam sm) !! k = sensor_status sm !! k.
Proof.
  intros Hk. unfold dispatch.
  destruct (image_result cam) as [[ip iu]|ex]; cbn.
  - destruct (video_result cam) as [[vp vu]|ex]; cbn.
    + destruct h; cbn; rewrite update_lookup_other by congruence; reflexivity.
    + rewrite update_lookup_other by congruence. reflexivity.
  - rewrite update_lookup_other by congruence. reflexivity.
Qed.

Lemma handle_lookup_other (h : Handler) (now : Time) (cam : CamResult) (sm : SM) (k : string) :
  k <> "camera"%string ->
  sensor_status (handle h now cam sm) !! k = sensor_status sm !! k.
Proof.
  intros Hk. unfold handle. destruct (cooldown_active sm now); [reflexivity|].
  now apply dispatch_lookup_other.
Qed.

(** What a dispatch does to the cooldown state and the collaborator calls. *)
Lemma dispatch_effects (h : Handler) (now : Time) (cam : CamResult) (sm : SM) :
  event_cooldown (dispatch h now cam sm) = event_cooldown sm /\
  count_captures (calls (dispatch h now cam sm)) = S (count_captures (calls sm)) /\
  count_alerts (calls (dispatch h now cam sm))
    = (count_alerts (calls sm) + if cam_ok cam then 1 else 0)%nat /\
  last_event_time (dispatch h now cam sm)
    = (if cam_ok cam then now else last_event_time sm) /\
  (cam_ok cam = false ->
   exists st, sensor_status (dispatch h now cam sm) !! "camera"%string = Some st /\
     is_active st = false /\ error st <> None).
Proof.
  unfold dispatch, cam_ok.
  destruct (image_result cam) as [[ip iu]|ex]; cbn.
  - destruct (video_result cam) as [[vp vu]|ex]; cbn.
    + destruct h; cbn;
        rewrite ?update_last, ?update_cooldown, ?update_calls; cbn;
        rewrite ?count_captures_app, ?count_alerts_app; cbn;
        repeat split; try lia; discriminate.
    + rewrite ?update_last, ?update_cooldown, ?update_calls; cbn.
      rewrite ?count_captures_app, ?count_alerts_app; cbn.
      repeat split; try lia.
      intros _. edestruct update_lookup_self as (st & S1 & S2 & _ & S4 & _).
      exists st. split; [exact S1|]. split; [exact S2|]. rewrite S4. discriminate.
  - rewrite ?update_last, ?update_cooldown, ?update_calls; cbn.
    rewrite ?count_captures_app, ?count_alerts_app; cbn.
    repeat split; try lia.
    intros _. edestruct update_lookup_self as (st & S1 & S2 & _ & S4 & _).
    exists st. split; [exact S1|]. split; [exact S2|]. rewrite S4. discriminate.
Qed.

Lemma handle_active (h : Handler) (now : Time) (cam : CamResult) (sm : SM) :
  cooldown_active sm now = true ->
  handle h now cam sm = add_log (mkLog LDEBUG (skip_message h) []) sm.
Proof. intros H. unfold handle. now rewrite H. Qed.

Lemma handle_inactive (h : Handler) (now : Time) (cam : CamResult) (sm : SM) :
  cooldown_active sm now = false -> handle h now cam sm = dispatch h now cam sm.
Proof. intros H. unfold handle. now rewrite H. Qed.

(** Every poll is some bookkeeping that leaves the cooldown state and the
    collaborator calls alone, followed, for a qualifying poll, by one of
    the two alert handlers. *)
Lemma poll_step_shape (p : Poll) (now : Time) (cam : CamResult) (sm : SM) :
  exists sm',
    (if qualifying p then exists h, poll_step p now cam sm = handle h now cam sm'
     else poll_step p now cam sm = sm') /\
    event_cooldown sm' = event_cooldown sm /\
    last_event_time sm' = last_event_time sm /\
    calls sm' = calls sm.
Proof.
  destruct p as [r|r|r|[st uid]]; cbn [poll_step qualifying].
  1-3: unfold _handle_motion_iteration, _handle_door_iteration, _handle_window_iteration,
         contact_iteration;
       destruct r as [[|]|ex]; cbn [qualifying];
       (eexists; split; [try (eexists; reflexivity); reflexivity|]);
       cbn; rewrite ?update_last, ?update_cooldown, ?update_calls;
       cbn; rewrite ?update_last, ?update_cooldown, ?update_calls; auto.
  unfold _handle_rfid_iteration.
  destruct (RFIDStatus_eqb st OK) eqn:Est; cbn [andb].
  2: { exists sm. split_and!; reflexivity. }
  pose proof (RFIDProofs.authenticate_card_result uid (reader sm)) as Ha.
  destruct (authenticate_card uid (reader sm)) as [[ast role] b]. cbn in Ha.
  destruct (card_lookup uid) as [info|]; injection Ha as -> ->;
    rewrite ?bool_decide_eq_false_2, ?bool_decide_eq_true_2 by congruence; cbn [RFIDStatus_eqb].
  - eexists; split; [reflexivity|]; cbn;
      rewrite ?update_last, ?update_cooldown, ?update_calls; cbn;
      rewrite ?update_last, ?update_cooldown, ?update_calls; auto.
  - eexists; split; [eexists; reflexivity|]; cbn;
      rewrite ?update_last, ?update_cooldown, ?update_calls; cbn;
      rewrite ?update_last, ?update_cooldown, ?update_calls; auto.
Qed.

(** A poll handled while the cooldown is active makes no collaborator call
    and keeps the timestamp. *)
Lemma poll_step_cooled (p : Poll) (now : Time) (cam : CamResult) (sm : SM) :
  cooldown_active sm now = true ->
  calls (poll_step p now cam sm) = calls sm /\
  last_event_time (poll_step p now cam sm) = last_event_time sm /\
  event_cooldown (poll_step p now cam sm) = event_cooldown sm.
Proof.
  intros Hc. destruct (poll_step_shape p now cam sm) as (sm' & Hp & E1 & E2 & E3).
  destruct (qualifying p).
  - destruct Hp as [h ->]. rewrite handle_active.
    + cbn. auto.
    + unfold cooldown_active in *. rewrite E1, E2. exact Hc.
  - rewrite Hp. auto.
Qed.

(** A qualifying poll handled while the cooldown is over dispatches. *)
Lemma poll_step_dispatch (p : Poll) (now : Time) (cam : CamResult) (sm : SM) :
  qualifying p = true -> cooldown_active sm now = false ->
  event_cooldown (poll_step p now cam sm) = event_cooldown sm /\
  count_captures (calls (poll_step p now cam sm)) = S (count_captures (calls sm)) /\
  count_alerts (calls (poll_step p now cam sm))
    = (count_alerts (calls sm) + if cam_ok cam then 1 else 0)%nat /\
  last_event_time (poll_step p now cam sm)
    = (if cam_ok cam then now else last_event_time sm).
Proof.
  intros Hq Hc. destruct (poll_step_shape p now cam sm) as (sm' & Hp & E1 & E2 & E3).
  rewrite Hq in Hp. destruct Hp as [h ->].
  rewrite handle_inactive.
  - destruct (dispatch_effects h now cam sm') as (D1 & D2 & D3 & D4 & _).
    rewrite D1, D2, D3, D4, E1, E2, E3. auto.
  - unfold cooldown_active in *. rewrite E1, E2. exact Hc.
Qed.

(** The handler seen as two atomic steps of one worker, run back to back. *)
Lemma handle_begin_finish (h : Handler) (now : Time) (cam : CamResult) (sm : SM) :
  handle h now cam sm = shared (run_conc [Begin 0 h now; Finish 0 cam] (mkConc sm ∅)).
Proof.
  unfold handle. cbn. destruct (cooldown_active sm now); cbn.
  - reflexivity.
  - rewrite lookup_insert_eq. reflexivity.
Qed.

Lemma add_log_status (en : LogEntry) (sm : SM) :
  sensor_status (add_log en sm) = sensor_status sm.
Proof. reflexivity. Qed.

Lemma set_reader_set_last (L : Time) (b : Bus) (sm : SM) :
  set_reader b (set_last_event_time L sm) = set_last_event_time L (set_reader b sm).
Proof. reflexivity. Qed.

(** C5. Three qualifying polls [p1], [p2], [p3] (on one channel or on any;
    the cooldown does not depend on it), the first handled at [t1] with
    the cooldown over, the second at [t2 >= t1]. The first captures once.
    If its [capture_image()] and [record_video()] both return, it alerts
    once and the timestamp becomes [t1]; a second poll before [t1 + D]
    then makes no collaborator call and leaves the timestamp at [t1]; a
    third at or after [t1 + D] captures again, and alerts when its camera
    calls return. If either camera call of the first event raises, no
    alert is sent, the timestamp keeps its old value, and the second
    qualifying poll captures again. *)
Theorem cooldown_window_one_channel (p1 p2 p3 : Poll) (sm0 : SM) (t1 t2 t3 : Time)
    (cam1 cam2 cam3 : CamResult) :
  qualifying p1 = true -> qualifying p2 = true -> qualifying p3 = true ->
  cooldown_active sm0 t1 = false ->
  t1 <= t2 ->
  let D := event_cooldown sm0 * SECOND in
  let sm1 := poll_step p1 t1 cam1 sm0 in
  let sm2 := poll_step p2 t2 cam2 sm1 in
  let sm3 := poll_step p3 t3 cam3 sm2 in
  count_captures (calls sm1) = S (count_captures (calls sm0)) /\
  (cam_ok cam1 = true ->
     count_alerts (calls sm1) = S (count_alerts (calls sm0)) /\
     last_event_time sm1 = t1 /\
     (t2 < t1 + D ->
        calls sm2 = calls sm1 /\ last_event_time sm2 = t1 /\
        (t1 + D <= t3 ->
           count_captures (calls sm3) = S (count_captures (calls sm2)) /\
           (cam_ok cam3 = true -> count_alerts (calls sm3) = S (count_alerts (calls sm2)))))) /\
  (cam_ok cam1 = false ->
     count_alerts (calls sm1) = count_alerts (calls sm0) /\
     last_event_time sm1 = last_event_time sm0 /\
     count_captures (calls sm2) = S (count_captures (calls sm1))).
Proof.
  intros Hq1 Hq2 Hq3 Hc H12. cbv zeta.
  destruct (poll_step_dispatch p1 t1 cam1 sm0 Hq1 Hc) as (A1 & A2 & A3 & A4).
  set (sm1 := poll_step p1 t1 cam1 sm0) in *.
  split_and!.
  - exact A2.
  - intros Hok. rewrite Hok in A3, A4. split_and!; [lia|exact A4|].
    intros H2.
    assert (Hc2 : cooldown_active sm1 t2 = true).
    { unfold cooldown_active. rewrite A1, A4. apply Z.ltb_lt. lia. }
    destruct (poll_step_cooled p2 t2 cam2 sm1 Hc2) as (B1 & B2 & B3).
    set (sm2 := poll_step p2 t2 cam2 sm1) in *.
    split_and!; [exact B1|rewrite B2; exact A4|].
    intros H3.
    assert (Hc3 : cooldown_active sm2 t3 = false).
    { unfold cooldown_active. rewrite B2, B3, A1, A4. apply Z.ltb_ge. lia. }
    destruct (poll_step_dispatch p3 t3 cam3 sm2 Hq3 Hc3) as (C1 & C2 & C3 & C4).
    split; [exact C2|]. intros Hok3. rewrite C3, Hok3. lia.
  - intros Hok. rewrite Hok in A3, A4. split_and!; [lia|exact A4|].
    assert (Hc2 : cooldown_active sm1 t2 = false).
    { unfold cooldown_active in Hc |- *. rewrite A1, A4.
      apply Z.ltb_ge in Hc. apply Z.ltb_ge. lia. }
    destruct (poll_step_dispatch p2 t2 cam2 sm1 Hq2 Hc2) as (_ & B2 & _).
    exact B2.
Qed.

Lemma cooldown_window_one_channel_witness :
  (qualifying (PMotion (Ok true)) = true /\
   cooldown_active (SensorManager_init 0 300) 0 = false /\
   0 <= 1000000 /\
   let D := event_cooldown (SensorManager_init 0 300) * SECOND in
   let sm1 := poll_step (PMotion (Ok true)) 0 cam_success (SensorManager_init 0 300) in
   let sm2 := poll_step (PMotion (Ok true)) 1000000 cam_success sm1 in
   let sm3 := poll_step (PMotion (Ok true)) 300000000 cam_success sm2 in
   count_captures (calls sm1) = S (count_captures (calls (SensorManager_init 0 300))) /\
   (cam_ok cam_success = true ->
      count_alerts (calls sm1) = S (count_alerts (calls (SensorManager_init 0 300))) /\
      last_event_time sm1 = 0 /\
      (1000000 < 0 + D ->
         calls sm2 = calls sm1 /\ last_event_time sm2 = 0 /\
         (0 + D <= 300000000 ->
            count_captures (calls sm3) = S (count_captures (calls sm2)) /\
            (cam_ok cam_success = true ->
               count_alerts (calls sm3) = S (count_alerts (calls sm2)))))) /\
   (cam_ok cam_success = false ->
      count_alerts (calls sm1) = count_alerts (calls (SensorManager_init 0 300)) /\
      last_event_time sm1 = last_event_time (SensorManager_init 0 300) /\
      count_captures (calls sm2) = S (count_captures (calls sm1)))) /\
  (qualifying (PMotion (Ok true)) = true /\
   cooldown_active (SensorManager_init 0 300) 0 = false /\
   0 <= 1000000 /\
   let D := event_cooldown (SensorManager_init 0 300) * SECOND in
   let sm1 := poll_step (PMotion (Ok true)) 0 cam_record_fails (SensorManager_init 0 300) in
   let sm2 := poll_step (PMotion (Ok true)) 1000000 cam_success sm1 in
   let sm3 := poll_step (PMotion (Ok true)) 300000000 cam_success sm2 in
   count_captures (calls sm1) = S (count_captures (calls (SensorManager_init 0 300))) /\
   (cam_ok cam_record_fails = true ->
      count_alerts (calls sm1) = S (count_alerts (calls (SensorManager_init 0 300))) /\
      last_event_time sm1 = 0 /\
      (1000000 < 0 + D ->
         calls sm2 = calls sm1 /\ last_event_time sm2 = 0 /\
         (0 + D <= 300000000 ->
            count_captures (calls sm3) = S (count_captures (calls sm2)) /\
            (cam_ok cam_success = true ->
               count_alerts (calls sm3) = S (count_alerts (calls sm2)))))) /\
   (cam_ok cam_record_fails = false ->
      count_alerts (calls sm1) = count_alerts (calls (SensorManager_init 0 300)) /\
      last_event_time sm1 = last_event_time (SensorManager_init 0 300) /\
      count_captures (calls sm2) = S (count_captures (calls sm1)))).
Proof.
  assert (Hq : qualifying (PMotion (Ok true)) = true) by reflexivity.
  assert (Hc : cooldown_active (SensorManager_init 0 300) 0 = false) by (vm_compute; reflexivity).
  split.
  - split; [exact Hq|]. split; [exact Hc|]. split; [lia|].
    exact (cooldown_window_one_channel (PMotion (Ok true)) (PMotion (Ok true)) (PMotion (Ok true))
             (SensorManager_init 0 300) 0 1000000 300000000 cam_success cam_success cam_success
             Hq Hq Hq Hc ltac:(lia)).
  - split; [exact Hq|]. split; [exact Hc|]. split; [lia|].
    exact (cooldown_window_one_channel (PMotion (Ok true)) (PMotion (Ok true)) (PMotion (Ok true))
             (SensorManager_init 0 300) 0 1000000 300000000 cam_record_fails cam_success cam_success
             Hq Hq Hq Hc ltac:(lia)).
Defined.

(** C5 fails as stated: when the first event's [capture_image()] raises,
    the timestamp is not set, so a second event one second later on the
    same channel (with a 300 s cooldown) captures again: two captures for
    two events less than [D] apart. *)
Lemma cooldown_window_one_channel_counterexample :
  let sm0 := SensorManager_init 0 300 in
  let sm1 := poll_step (PMotion (Ok true)) 0 cam_capture_fails sm0 in
  let sm2 := poll_step (PMotion (Ok true)) 1000000 cam_success sm1 in
  1000000 - 0 < event_cooldown sm0 * SECOND /\
  count_captures (calls sm0) = 0%nat /\
  count_captures (calls sm2) = 2%nat.
Proof. vm_compute. split_and!; reflexivity. Qed.

(** C6. Once the cooldown check has passed, the handler (either alert path)
    calls [capture_image()] once. The timestamp becomes the event's time
    exactly when capture and recording both return, and the alert is then
    sent whatever its channels do ([send_alert] does not raise). When
    either capture call raises, no alert is sent, the camera entry records
    the error, and the timestamp keeps its old value. *)
Theorem handler_timestamp_after_capture (h : Handler) (now : Time) (cam : CamResult) (sm : SM) :
  cooldown_active sm now = false ->
  count_captures (calls (handle h now cam sm)) = S (count_captures (calls sm)) /\
  (cam_ok cam = true ->
     last_event_time (handle h now cam sm) = now /\
     count_alerts (calls (handle h now cam sm)) = S (count_alerts (calls sm))) /\
  (cam_ok cam = false ->
     last_event_time (handle h now cam sm) = last_event_time sm /\
     count_alerts (calls (handle h now cam sm)) = count_alerts (calls sm) /\
     exists st, sensor_status (handle h now cam sm) !! "camera"%string = Some st /\
       is_active st = false /\ error st <> None).
Proof.
  intros Hc. rewrite handle_inactive by exact Hc.
  destruct (dispatch_effects h now cam sm) as (D1 & D2 & D3 & D4 & D5).
  split_and!; [exact D2| |].
  - intros Hok. rewrite D3, D4, Hok. split; [reflexivity | lia].
  - intros Hko. rewrite D3, D4, Hko. split_and!; [reflexivity | lia | exact (D5 Hko)].
Qed.

Lemma handler_timestamp_after_capture_witness :
  count_captures (calls (handle (HIntrusion "door_opened" "Door opened in server room") 0
                            cam_capture_fails (SensorManager_init 0 300)))
    = S (count_captures (calls (SensorManager_init 0 300))).
Proof.
  apply (handler_timestamp_after_capture (HIntrusion "door_opened" "Door opened in server room")
           0 cam_capture_fails (SensorManager_init 0 300)).
  vm_compute. reflexivity.
Defined.

(** C6 fails as stated: at start-up (cooldown 300 s, so the check passes at
    once) a motion event whose [capture_image()] raises leaves the
    timestamp at its initial value instead of the event's time 0. *)
Lemma handler_timestamp_after_capture_counterexample :
  let sm0 := SensorManager_init 0 300 in
  cooldown_active sm0 0 = false /\
  last_event_time (_handle_intrusion_event "motion_detected" "Motion detected in server room"
                     0 cam_capture_fails sm0) = -300000000 /\
  -300000000 <> 0.
Proof. vm_compute. split_and!; [reflexivity | reflexivity | discriminate]. Qed.

(** C9. Updating a sensor name absent from the table does not fail: it logs
    a warning and inserts a fresh entry whose type is inferred from the
    name (or ["unknown"]), with event count 1 exactly when an event was
    flagged; the other entries are untouched. *)
Theorem update_unregistered_creates_entry (sensor_name : string) (is_active : bool)
    (error : option string) (data : option Data) (event_detected : bool) (now : Time) (sm : SM) :
  sensor_status sm !! sensor_name = None ->
  let sm' := _update_sensor_status sensor_name is_active error data event_detected now sm in
  sensor_status sm' !! sensor_name =
    Some (mkStatus sensor_name is_active now (fallback_type sensor_name) None error data None
            (if event_detected then Some now else None)
            (if event_detected then 1 else 0)) /\
  In (fallback_type sensor_name)
     ["motion"; "door"; "window"; "rfid"; "camera"; "actuator"; "unknown"]%string /\
  logs sm' = logs sm ++
    [mkLog LWARNING
       "Attempted to update status for uninitialized sensor: {sensor_name}. Creating entry."
       [AStr sensor_name]] /\
  (forall k, k <> sensor_name -> sensor_status sm' !! k = sensor_status sm !! k).
Proof.
  intros Hnone. cbv zeta. unfold _update_sensor_status. rewrite Hnone. cbn.
  split_and!.
  - apply lookup_insert_eq.
  - unfold fallback_type.
    repeat match goal with |- context [if ?b then _ else _] => destruct b end;
      cbn; tauto.
  - reflexivity.
  - intros k Hk. apply lookup_insert_ne. congruence.
Qed.

Lemma update_unregistered_creates_entry_witness :
  sensor_status (_update_sensor_status "fan" true None None true 7 (SensorManager_init 0 300))
    !! "fan"%string =
  Some (mkStatus "fan" true 7 (fallback_type "fan") None None None None (Some 7) 1).
Proof.
  apply (update_unregistered_creates_entry "fan" true None None true 7 (SensorManager_init 0 300)).
  vm_compute. reflexivity.
Defined.

(** C7. Whatever the cooldown timestamp holds, a poll of any worker leaves
    every status entry other than ["camera"] exactly as it would otherwise
    (the cooldown only gates capture, notification and the camera entry);
    a poll of a contact worker, or a card poll that read a card, refreshes
    its channel's entry at the poll's time; a card poll that read no card
    leaves the table unchanged. *)
Theorem status_write_independent_of_cooldown (p : Poll) (now L : Time) (cam : CamResult) (sm : SM) :
  (forall k, k <> "camera"%string ->
     sensor_status (poll_step p now cam (set_last_event_time L sm)) !! k
     = sensor_status (poll_step p now cam sm) !! k) /\
  (poll_writes p = true ->
     exists st, sensor_status (poll_step p now cam sm) !! poll_channel p = Some st /\
       last_check st = now) /\
  (poll_writes p = false -> sensor_status (poll_step p now cam sm) = sensor_status sm).
Proof.
  split_and!.
  - intros k Hk. destruct p as [r|r|r|[st uid]]; cbn [poll_step].
    1-3: unfold _handle_motion_iteration, _handle_door_iteration, _handle_window_iteration,
           contact_iteration, _handle_intrusion_event;
         destruct r as [[|]|ex]; cbv beta iota zeta;
         rewrite ?handle_lookup_other by exact Hk;
         repeat rewrite ?update_set_last, ?add_log_set_last; reflexivity.
    unfold _handle_rfid_iteration, _handle_unauthorized_access. cbv beta iota zeta.
    destruct (RFIDStatus_eqb st OK); [|reflexivity].
    change (reader (set_last_event_time L sm)) with (reader sm).
    destruct (authenticate_card uid (reader sm)) as [[ast role] b]. cbv beta iota zeta.
    rewrite set_reader_set_last, update_set_last.
    destruct (RFIDStatus_eqb ast OK).
    + reflexivity.
    + rewrite !handle_lookup_other by exact Hk. reflexivity.
  - intros Hw. destruct p as [r|r|r|[st uid]]; cbn [poll_step poll_channel poll_writes] in *.
    1-3: unfold _handle_motion_iteration, _handle_door_iteration, _handle_window_iteration,
           contact_iteration, _handle_intrusion_event;
         destruct r as [[|]|ex]; cbv beta iota zeta;
         rewrite ?handle_lookup_other by (cbn; discriminate);
         rewrite ?add_log_status;
         edestruct update_lookup_self as (st & S1 & _ & S3 & _); eauto.
    unfold _handle_rfid_iteration, _handle_unauthorized_access. cbv beta iota zeta.
    rewrite Hw.
    destruct (authenticate_card uid (reader sm)) as [[ast role] b]. cbv beta iota zeta.
    destruct (RFIDStatus_eqb ast OK);
      rewrite ?handle_lookup_other by discriminate; rewrite ?add_log_status;
      edestruct update_lookup_self as (st' & S1 & _ & S3 & _); eauto.
  - intros Hw. destruct p as [r|r|r|[st uid]]; cbn [poll_writes] in Hw; try discriminate.
    cbn [poll_step]. unfold _handle_rfid_iteration. cbv beta iota zeta.
    rewrite Hw. reflexivity.
Qed.

Lemma status_write_independent_of_cooldown_witness :
  exists st, sensor_status (poll_step (PDoor (Ok true)) 5000000 cam_success
                              (SensorManager_init 0 300)) !! "door"%string = Some st /\
             last_check st = 5000000.
Proof.
  apply (status_write_independent_of_cooldown (PDoor (Ok true)) 5000000 0 cam_success
           (SensorManager_init 0 300)).
  reflexivity.
Defined.

(** C7 fails as stated: an iteration of the card worker that reads no card
    (here [NO_TAG] at 5 s) writes nothing, so the ["rfid"] entry keeps the
    [last_check] of time 0. *)
Lemma status_write_independent_of_cooldown_counterexample :
  let sm0 := SensorManager_init 0 300 in
  sensor_status (poll_step (PRfid (NO_TAG, [])) 5000000 cam_success sm0) !! "rfid"%string
    = sensor_status sm0 !! "rfid"%string /\
  option_map last_check (sensor_status sm0 !! "rfid"%string) = Some 0.
Proof. vm_compute. split; reflexivity. Qed.

Lemma run_polls_cooled (t0 : Time) (rest : list (Poll * Time * CamResult)) (sm : SM) :
  last_event_time sm = t0 ->
  Forall (fun '(_, t, _) => t < t0 + event_cooldown sm * SECOND) rest ->
  calls (run_polls rest sm) = calls sm /\
  last_event_time (run_polls rest sm) = t0 /\
  event_cooldown (run_polls rest sm) = event_cooldown sm.
Proof.
  revert sm. induction rest as [|[[q t] c] rest IH]; intros sm Hl Hf; cbn; [auto|].
  pose proof (Forall_inv Hf) as Ht. pose proof (Forall_inv_tail Hf) as Hrest. cbn in Ht.
  assert (Hc : cooldown_active sm t = true).
  { unfold cooldown_active. rewrite Hl. apply Z.ltb_lt. lia. }
  destruct (poll_step_cooled q t c sm Hc) as (E1 & E2 & E3).
  rewrite <- E3 in Hrest.
  destruct (IH (poll_step q t c sm) ltac:(congruence) Hrest) as (F1 & F2 & F3).
  split_and!; congruence.
Qed.

(** C10. The cooldown is one timestamp for all workers and both alert
    paths: when polls of any workers run one after another, after a
    qualifying poll at [t0] whose dispatch succeeds, the timestamp is [t0],
    and every later poll of any channel handled before [t0 + D] makes no
    capture or notification call and leaves the timestamp at [t0]. *)
Theorem shared_cooldown_sequential (p : Poll) (t0 : Time) (cam : CamResult) (sm : SM)
    (rest : list (Poll * Time * CamResult)) :
  qualifying p = true ->
  cooldown_active sm t0 = false ->
  cam_ok cam = true ->
  Forall (fun '(_, t, _) => t < t0 + event_cooldown sm * SECOND) rest ->
  last_event_time (poll_step p t0 cam sm) = t0 /\
  calls (run_polls rest (poll_step p t0 cam sm)) = calls (poll_step p t0 cam sm) /\
  last_event_time (run_polls rest (poll_step p t0 cam sm)) = t0.
Proof.
  intros Hq Hc Hok Hf.
  destruct (poll_step_dispatch p t0 cam sm Hq Hc) as (A1 & _ & _ & A4).
  rewrite Hok in A4. rewrite <- A1 in Hf.
  destruct (run_polls_cooled t0 rest (poll_step p t0 cam sm) A4 Hf) as (B1 & B2 & _).
  auto.
Qed.

Lemma shared_cooldown_sequential_witness :
  calls (run_polls [(PDoor (Ok true), 1000000, cam_success);
                    (PRfid (OK, [1; 2; 3; 4; 5]), 2000000, cam_success)]
           (poll_step (PMotion (Ok true)) 0 cam_success (SensorManager_init 0 300)))
  = calls (poll_step (PMotion (Ok true)) 0 cam_success (SensorManager_init 0 300)).
Proof.
  apply (shared_cooldown_sequential (PMotion (Ok true)) 0 cam_success (SensorManager_init 0 300)
           [(PDoor (Ok true), 1000000, cam_success);
            (PRfid (OK, [1; 2; 3; 4; 5]), 2000000, cam_success)]).
  - reflexivity.
  - vm_compute. reflexivity.
  - reflexivity.
  - repeat constructor; vm_compute; reflexivity.
Defined.

(** C10 fails as stated for workers that overlap: an unauthorized card at
    0 s and motion at 5 s both pass the check; the motion dispatch succeeds
    and sets the timestamp to 5 s; the card handler, still recording its
    30 s video, then finishes and writes back 0 s. A door event at 301 s,
    within 300 s of the successful dispatch at 5 s, is not skipped. *)
Lemma shared_cooldown_sequential_counterexample :
  let sm0 := SensorManager_init 0 300 in
  let c1 := run_conc [Begin 3 (HUnauthorized "1-2-3-4-5") 0;
                      Begin 0 (HIntrusion "motion_detected" "Motion detected in server room") 5000000;
                      Finish 0 cam_success] (mkConc sm0 ∅) in
  let c2 := run_conc [Finish 3 cam_success;
                      Begin 1 (HIntrusion "door_opened" "Door opened in server room") 301000000] c1 in
  last_event_time (shared c1) = 5000000 /\
  count_alerts (calls (shared c1)) = 1%nat /\
  5000000 <= 301000000 < 5000000 + event_cooldown sm0 * SECOND /\
  pending c2 !! 1%nat = Some (HIntrusion "door_opened" "Door opened in server room", 301000000) /\
  count_captures (calls (shared (conc_step (Finish 1 cam_success) c2))) = 3%nat.
Proof. vm_compute. split_and!; try reflexivity; discriminate. Qed.

End SensorProofs.

Module RFIDDriverProofs.
Import RFID RFIDDriver.
Ltac unfold_M := unfold mbind, M_bind, mret, M_ret, Read_MFRC522, Write_MFRC522, emit in *.
Local Opaque POLL_CEILING.

Lemma land7_bounds (x : Z) : 0 <= Z.land x 7 <= 7.
Proof.
  assert (Z.land x 7 = x mod 8) as -> by (apply (Z.land_ones x 3); lia).
  pose proof (Z.mod_pos_bound x 8 ltac:(lia)). lia.
Qed.

Section Exchange.
Variable chip : nat -> Z -> Z.

Lemma read_n_length (reg : Z) (k : nat) (s : Bus) :
  length (fst (read_n chip reg k s)) = k.
Proof.
  revert s. induction k as [|k IH]; intros s; [reflexivity|].
  cbn. unfold_M. cbn.
  match goal with |- context [read_n chip reg k ?s0] =>
    specialize (IH s0); destruct (read_n chip reg k s0) end.
  cbn in *. congruence.
Qed.

Lemma ToCard_finish_props (command n : Z) (i : nat) (s : Bus) :
  let r := fst (ToCard_finish chip command n i s) in
  (length (snd (fst r)) <= 16)%nat /\
  (0 < snd r -> (1 <= length (snd (fst r)))%nat) /\
  (command <> PCD_TRANSCEIVE -> snd (fst r) = [] /\ snd r = 0) /\
  (command = PCD_AUTHENT -> fst (fst r) <> NO_TAG).
Proof.
  cbv zeta. unfold ToCard_finish.
  destruct (irq_masks command) as [irqEn w] eqn:Em.
  unfold ClearBitMask. unfold_M. cbn.
  destruct i as [|i]; cbn.
  { repeat split; try lia; discriminate. }
  destruct (Z.land _ 27 =? 0); cbn; [| repeat split; try lia; discriminate].
  destruct (command =? PCD_TRANSCEIVE) eqn:Ec; cbn.
  - match goal with |- context [read_n chip ?r ?k ?s0] =>
      pose proof (read_n_length r k s0) as Hl; destruct (read_n chip r k s0) as [bd s2] end.
    cbn in *. apply Z.eqb_eq in Ec.
    set (F := chip _ FIFOLevelReg) in *.
    set (C := Z.land (chip _ ControlReg) 7) in *.
    pose proof (land7_bounds (chip (S (S (S (nreads s)))) ControlReg)) as HC. fold C in HC.
    rewrite Hl. unfold MAX_LEN.
    split; [lia|]. split.
    + intros Hpos. destruct (C =? 0) eqn:EC; cbn in Hpos.
      * lia.
      * apply Z.eqb_neq in EC. lia.
    + split; [intros; congruence|]. intros ->. discriminate.
  - split; [cbn; lia|]. split; [cbn; lia|]. split; [auto|].
    intros ->. cbn in Em. inversion Em; subst. rewrite <- Z.land_assoc, Z.land_0_r. cbn. discriminate.
Qed.

Lemma M_bind_eq {A B} (m : M A) (k : A -> M B) (s : Bus) :
  (mbind k m) s = k (fst (m s)) (snd (m s)).
Proof. unfold mbind, M_bind. destruct (m s); reflexivity. Qed.

Lemma ToCard_props (command : Z) (sendData : list Z) (s : Bus) :
  let r := fst (MFRC522_ToCard chip command sendData s) in
  (length (snd (fst r)) <= 16)%nat /\
  (0 < snd r -> (1 <= length (snd (fst r)))%nat) /\
  (command <> PCD_TRANSCEIVE -> snd (fst r) = [] /\ snd r = 0) /\
  (command = PCD_AUTHENT -> fst (fst r) <> NO_TAG).
Proof. rewrite RFIDProofs.ToCard_unfold. apply ToCard_finish_props. Qed.

Lemma write_all_nreads (reg : Z) (l : list Z) (s : Bus) :
  nreads (snd (write_all reg l s)) = nreads s.
Proof.
  revert s. induction l as [|x l IH]; intros s; [reflexivity|].
  cbn [write_all]. rewrite M_bind_eq. rewrite IH. reflexivity.
Qed.

Lemma crc_wait_reads (K : nat) (s : Bus) :
  exists k, (k <= K)%nat /\ nreads (snd (crc_wait chip K s)) = (nreads s + k)%nat.
Proof.
  revert s. induction K as [|K IH]; intros s.
  - exists O. split; [lia|]. cbn. lia.
  - cbn [crc_wait]. rewrite M_bind_eq.
    destruct (negb (Z.land (fst (Read_MFRC522 chip DivIrqReg s)) 4 =? 0)).
    + exists 1%nat. split; [lia|]. cbn. lia.
    + destruct (IH (snd (Read_MFRC522 chip DivIrqReg s))) as (k & Hk & E).
      exists (S k). split; [lia|]. rewrite E. cbn. lia.
Qed.

End Exchange.

(** Every [MFRC522_ToCard] exchange returns at most 16 data bytes, at least
    one byte whenever it reports a positive bit count, no data and no bits
    for a command other than [PCD_TRANSCEIVE], and never [NO_TAG] for
    [PCD_AUTHENT] (the timer bit is only tested on a transceive). *)
Theorem ToCard_result_bounds (chip : nat -> Z -> Z) (command : Z) (sendData : list Z) (s : Bus) :
  let r := fst (MFRC522_ToCard chip command sendData s) in
  (length (snd (fst r)) <= 16)%nat /\
  (0 < snd r -> (1 <= length (snd (fst r)))%nat) /\
  (command <> PCD_TRANSCEIVE -> snd (fst r) = [] /\ snd r = 0) /\
  (command = PCD_AUTHENT -> fst (fst r) <> NO_TAG).
Proof. exact (ToCard_props chip command sendData s). Qed.

Section Driver.
Variable chip : nat -> Z -> Z.

(** [AntennaOn]'s test [~(temp & 0x03)] is never zero: the antenna bits are
    always set, with a second read of [TxControlReg] by [SetBitMask]. *)
Theorem AntennaOn_always_sets (s : Bus) :
  AntennaOn chip s = SetBitMask chip TxControlReg 0x03 (snd (Read_MFRC522 chip TxControlReg s)).
Proof.
  unfold AntennaOn. rewrite M_bind_eq.
  set (t := fst (Read_MFRC522 chip TxControlReg s)).
  assert (0 <= Z.land t 3) by (apply Z.land_nonneg; lia).
  rewrite Z.lnot_eq_pred_opp.
  destruct (- Z.land t 3 - 1 =? 0) eqn:E; [apply Z.eqb_eq in E; lia|]. reflexivity.
Qed.

(** [CalculateCRC] always returns the two result registers, low byte
    first, after at most 255 polls of [DivIrqReg]; a CRC that never
    completes is not reported. *)
Theorem CalculateCRC_result (data : list Z) (s : Bus) :
  exists k, (k <= 255)%nat /\
    fst (CalculateCRC chip data s)
      = [chip (nreads s + 2 + k)%nat CRCResultRegL; chip (nreads s + 3 + k)%nat CRCResultRegM] /\
    nreads (snd (CalculateCRC chip data s)) = (nreads s + 4 + k)%nat.
Proof.
  unfold CalculateCRC, ClearBitMask, SetBitMask.
  repeat rewrite M_bind_eq.
  cbn [fst snd].
  set (s2 := snd (write_all FIFODataReg data _)).
  assert (E2 : nreads s2 = (nreads s + 2)%nat) by (unfold s2; rewrite write_all_nreads; cbn; lia).
  destruct (crc_wait_reads chip 255 (snd (Write_MFRC522 CommandReg PCD_CALCCRC s2)))
    as (k & Hk & Ek).
  exists k. split; [exact Hk|].
  cbn in Ek |- *. rewrite Ek, E2.
  split; [repeat f_equal; lia|lia].
Qed.


(** [MFRC522_Request] reports only OK or ERROR: a [NO_TAG] exchange (timer
    expired) comes back as ERROR, and OK needs an OK exchange answering
    exactly 16 bits. *)
Theorem Request_status (reqMode : Z) (s : Bus) :
  let x := fst (MFRC522_ToCard chip PCD_TRANSCEIVE [reqMode]
                  (snd (Write_MFRC522 BitFramingReg 0x07 s))) in
  let r := fst (MFRC522_Request chip reqMode s) in
  snd r = snd x /\ fst r <> NO_TAG /\ (fst r = OK <-> fst (fst x) = OK /\ snd x = 0x10).
Proof.
  cbv zeta. unfold MFRC522_Request.
  rewrite M_bind_eq. cbv beta. rewrite M_bind_eq. cbv beta.
  destruct (fst (MFRC522_ToCard chip PCD_TRANSCEIVE [reqMode] _)) as [[st bd] bb].
  unfold mret, M_ret. cbn [fst snd].
  destruct (Z.eqb_spec bb 16) as [->|Hb]; destruct st; cbn;
    repeat split; try discriminate; try tauto; intros []; congruence.
Qed.

(** [MFRC522_SelectTag] never raises: a 24-bit answer always leaves at
    least one byte for [backData[0]]. *)
Theorem SelectTag_never_raises (serNum : list Z) (s : Bus) :
  exists b, fst (MFRC522_SelectTag chip serNum s) = Ok b.
Proof.
  unfold MFRC522_SelectTag.
  rewrite M_bind_eq. cbv beta zeta. rewrite M_bind_eq. cbv beta.
  match goal with |- context [MFRC522_ToCard chip PCD_TRANSCEIVE ?buf ?s1] =>
    destruct (ToCard_props chip PCD_TRANSCEIVE buf s1) as (_ & H2 & _);
    destruct (fst (MFRC522_ToCard chip PCD_TRANSCEIVE buf s1)) as [[st bd] bl] end.
  cbn [fst snd] in H2.
  destruct (RFIDStatus_eqb st OK && (bl =? 24)) eqn:E.
  - apply andb_true_iff in E as [_ E]. apply Z.eqb_eq in E. subst bl.
    destruct bd as [|b bd]; [cbn in H2; lia|].
    cbn. exists b. reflexivity.
  - exists 0. reflexivity.
Qed.

(** [MFRC522_Auth] returns the status of its [PCD_AUTHENT] exchange (never
    [NO_TAG]); it logs ["AUTH ERROR!!"] when that status is not OK or the
    crypto bit of [Status2Reg] is clear, and still returns OK in the
    second case. *)
Theorem Auth_returns_exchange_status (authMode blockAddr : Z) (sectorKey serNum : list Z)
    (s : Bus) :
  let x := MFRC522_ToCard chip PCD_AUTHENT (([authMode; blockAddr] ++ sectorKey) ++ serNum) s in
  let st := fst (fst (fst x)) in
  fst (MFRC522_Auth chip authMode blockAddr sectorKey serNum s) = st /\ st <> NO_TAG /\
  log (snd (MFRC522_Auth chip authMode blockAddr sectorKey serNum s))
    = log (snd x) ++
      (if negb (RFIDStatus_eqb st OK) || (Z.land (chip (nreads (snd x)) Status2Reg) 0x08 =? 0)
       then [mkLog LERROR "AUTH ERROR!!" []] else []).
Proof.
  cbv zeta. unfold MFRC522_Auth. cbv zeta.
  destruct (ToCard_props chip PCD_AUTHENT (([authMode; blockAddr] ++ sectorKey) ++ serNum) s)
    as (_ & _ & _ & H4).
  specialize (H4 eq_refl).
  rewrite M_bind_eq. cbv beta.
  destruct (MFRC522_ToCard chip PCD_AUTHENT _ s) as [[[st bd] bl] s1]. cbn [fst snd] in *.
  rewrite M_bind_eq.
  destruct st; cbn [RFIDStatus_eqb negb orb]; [|contradiction|].
  - rewrite M_bind_eq. unfold Read_MFRC522. cbn [fst snd].
    unfold emit, mret, M_ret.
    destruct (Z.land (chip (nreads s1) Status2Reg) 8 =? 0); cbn; rewrite ?app_nil_r; auto.
  - cbn. rewrite ?app_nil_r. auto.
Qed.

Lemma write_ack_ok (st : RFIDStatus) (bd : list Z) (bl : Z) :
  (0 < bl -> (1 <= length bd)%nat) -> exists b, write_ack st bd bl = Ok b.
Proof.
  intros H. unfold write_ack.
  destruct (RFIDStatus_eqb st OK && (bl =? 4)) eqn:E; [|eauto].
  apply andb_true_iff in E as [_ E]. apply Z.eqb_eq in E. subst.
  destruct bd as [|b bd]; [cbn in H; lia|]. cbn. eauto.
Qed.

(** [RFIDReader.write_card_data] returns [True] whatever the card answers:
    [MFRC522_Write] only logs a failed write and never raises (a 4-bit
    acknowledgement always carries a byte for [backData[0]]). *)
Theorem write_card_data_true (block_addr : Z) (data : list Z) (s : Bus) :
  fst (write_card_data chip block_addr data s) = true.
Proof.
  unfold write_card_data. rewrite M_bind_eq.
  assert (fst (MFRC522_Write chip block_addr data s) = Ok tt) as ->; [|reflexivity].
  unfold MFRC522_Write.
  rewrite M_bind_eq. cbv beta zeta. rewrite M_bind_eq. cbv beta.
  match goal with |- context [MFRC522_ToCard chip PCD_TRANSCEIVE ?buf ?s1] =>
    destruct (ToCard_props chip PCD_TRANSCEIVE buf s1) as (_ & H2 & _);
    destruct (MFRC522_ToCard chip PCD_TRANSCEIVE buf s1) as [[[st bd] bl] s2] end.
  cbn [fst snd] in *.
  destruct (write_ack_ok st bd bl H2) as [[|] ->].
  - rewrite M_bind_eq. cbv beta zeta. rewrite M_bind_eq. cbv beta.
    match goal with |- context [MFRC522_ToCard chip PCD_TRANSCEIVE ?buf ?s1] =>
      destruct (ToCard_props chip PCD_TRANSCEIVE buf s1) as (_ & H2' & _);
      destruct (MFRC522_ToCard chip PCD_TRANSCEIVE buf s1) as [[[st' bd'] bl'] s3] end.
    cbn [fst snd] in *.
    destruct (write_ack_ok st' bd' bl' H2') as [[|] ->]; reflexivity.
  - reflexivity.
Qed.

Lemma anticoll_exchange_len (s : Bus) :
  (length (snd (fst (fst (anticoll_exchange chip s)))) <= 16)%nat.
Proof.
  unfold anticoll_exchange. rewrite M_bind_eq. apply ToCard_props.
Qed.

End Driver.


(** [RFIDReader.read_card] returns OK only with the UID bytes of an
    anti-collision answer of at most 16 bytes, checksum-valid when there
    are five of them, and an empty UID with any other status. The length
    itself is not checked: a chip answering four bytes yields OK. *)
Theorem read_card_uid :
  (forall (chip : nat -> Z -> Z) (s : Bus),
     let '(st, uid) := fst (read_card chip s) in
     (st <> OK -> uid = []) /\
     (st = OK -> (length uid <= 16)%nat /\
        forall b0 b1 b2 b3 b4, uid = [b0; b1; b2; b3; b4] ->
          Z.lxor (Z.lxor (Z.lxor b0 b1) b2) b3 = b4)) /\
  fst (read_card demo_chip (mkBus [] 0 [])) = (OK, [18; 19; 20; 21]).
Proof.
  split; [|vm_compute; reflexivity].
  intros chip s. unfold read_card.
  rewrite M_bind_eq. cbv beta.
  destruct (fst (MFRC522_Request chip PICC_REQIDL s)) as [st tag]. cbn [RFIDStatus_eqb].
  destruct st; unfold mret, M_ret; cbn [RFIDStatus_eqb fst snd];
    [|split; [auto|discriminate]..].
  rewrite M_bind_eq. cbv beta.
  set (s1 := snd (MFRC522_Request chip PICC_REQIDL s)).
  rewrite RFIDProofs.Anticoll_unfold.
  pose proof (anticoll_exchange_len chip s1) as Hlen.
  destruct (fst (anticoll_exchange chip s1)) as [[st bd] bb]. cbn [fst snd] in *.
  unfold anticoll_check.
  destruct (RFIDStatus_eqb st OK && (length bd =? 5)%nat) eqn:E.
  - apply andb_true_iff in E as [E1 E5]. apply Nat.eqb_eq in E5.
    destruct bd as [|b0 [|b1 [|b2 [|b3 [|b4 [|b5 bd]]]]]]; cbn in E5; try discriminate.
    cbn. destruct st; try discriminate. cbn.
    destruct (Z.eqb_spec (Z.lxor (Z.lxor (Z.lxor (Z.lxor 0 b0) b1) b2) b3) b4) as [Ex|Ex]; cbn.
    + split; [intros []; reflexivity|]. intros _. split; [lia|].
      intros c0 c1 c2 c3 c4 Hc. injection Hc as <- <- <- <- <-.
      rewrite Z.lxor_0_l in Ex. exact Ex.
    + split; [auto|discriminate].
  - cbn. destruct st; cbn; [|split; [auto|discriminate]..].
    split; [intros []; reflexivity|]. intros _. split; [exact Hlen|].
    intros c0 c1 c2 c3 c4 ->. cbn in E. discriminate.
Qed.

Lemma authorized_uids_eq :
  _authorized_uids = [(5, 74, 28, 185, 234); (20, 38, 121, 207, 132); (83, 164, 247, 164, 164)].
Proof. vm_compute. reflexivity. Qed.

(** Over [MockMFRC522], [read_card] gives [NO_TAG] with an empty UID when
    the first draw is not below 0.3, and otherwise OK with five bytes;
    when the second draw is below 0.8 the UID is a key of
    [AUTHORIZED_CARDS]. *)
Theorem mock_read_card_shape (d : MockDraw) :
  valid_draw d ->
  (mock_read_card d = (NO_TAG, []) /\ 5404319552844595 <= 2 * detect_k d) \/
  (2 * detect_k d < 5404319552844595 /\
   exists uid, mock_read_card d = (OK, uid) /\ length uid = 5%nat /\
     Forall (fun b => 0 <= b <= 255) uid /\
     (authorized_k d < 7205759403792794 -> exists info, card_lookup uid = Some info)).
Proof.
  intros (_ & _ & Hi & Hl & Hb).
  unfold mock_read_card, Mock_Anticoll. cbn [RFIDStatus_eqb].
  destruct (Z.ltb_spec (2 * detect_k d) 5404319552844595) as [E1|E1].
  - right. split; [exact E1|].
    destruct (Z.ltb_spec (authorized_k d) 7205759403792794) as [E2|E2].
    + rewrite authorized_uids_eq in Hi |- *.
      destruct (choice_index d) as [|[|[|i]]]; [..|cbn in Hi; lia];
        cbn [lookup list_lookup uid_list];
        (eexists; split; [reflexivity|]);
        (split; [reflexivity|]); (split; [repeat constructor; lia|]);
        intros _; eexists; vm_compute; reflexivity.
    + cbn. eexists. split; [reflexivity|]. split; [exact Hl|]. split; [exact Hb|]. lia.
  - left. split; [reflexivity|lia].
Qed.

Lemma mock_read_card_shape_witness :
  valid_draw (mkDraw 0 0 1 [1; 2; 3; 4; 5]) /\
  ((mock_read_card (mkDraw 0 0 1 [1; 2; 3; 4; 5]) = (NO_TAG, []) /\
    5404319552844595 <= 2 * detect_k (mkDraw 0 0 1 [1; 2; 3; 4; 5])) \/
   (2 * detect_k (mkDraw 0 0 1 [1; 2; 3; 4; 5]) < 5404319552844595 /\
    exists uid, mock_read_card (mkDraw 0 0 1 [1; 2; 3; 4; 5]) = (OK, uid) /\
      length uid = 5%nat /\ Forall (fun b => 0 <= b <= 255) uid /\
      (authorized_k (mkDraw 0 0 1 [1; 2; 3; 4; 5]) < 7205759403792794 ->
       exists info, card_lookup uid = Some info))).
Proof.
  assert (H : valid_draw (mkDraw 0 0 1 [1; 2; 3; 4; 5])).
  { unfold valid_draw. cbn [detect_k authorized_k choice_index random_bytes].
    rewrite authorized_uids_eq. cbn [length]. split_and!; try lia; repeat constructor; lia. }
  split; [exact H|]. apply (mock_read_card_shape (mkDraw 0 0 1 [1; 2; 3; 4; 5]) H).
Defined.

End RFIDDriverProofs.


Module SensorExtraProofs.
Import RFID Sensors SensorsMore SensorProofs.


Lemma update_statics (n : string) a e d ev now (sm : SM) :
  is_Some (sensor_status sm !! n) ->
  statics (_update_sensor_status n a e d ev now sm) = statics sm.
Proof.
  intros [cur Hc]. unfold _update_sensor_status, statics. rewrite Hc. cbn.
  rewrite fmap_insert. cbn. apply insert_id. rewrite lookup_fmap, Hc. reflexivity.
Qed.

Lemma statics_present (sm1 sm2 : SM) (k : string) :
  statics sm1 = statics sm2 ->
  is_Some (sensor_status sm2 !! k) -> is_Some (sensor_status sm1 !! k).
Proof.
  unfold statics. intros E H.
  apply (fmap_is_Some (fun st => (name st, type st, location st, firmware_version st))).
  rewrite <- lookup_fmap, E, lookup_fmap. now apply fmap_is_Some.
Qed.

Lemma statics_add_log en sm : statics (add_log en sm) = statics sm.
Proof. reflexivity. Qed.
Lemma statics_add_call c sm : statics (add_call c sm) = statics sm.
Proof. reflexivity. Qed.
Lemma statics_set_last t sm : statics (set_last_event_time t sm) = statics sm.
Proof. reflexivity. Qed.
Lemma statics_set_reader b sm : statics (set_reader b sm) = statics sm.
Proof. reflexivity. Qed.

Lemma present_update (n k : string) a e d ev now (sm : SM) :
  is_Some (sensor_status sm !! k) ->
  is_Some (sensor_status (_update_sensor_status n a e d ev now sm) !! k).
Proof.
  intros H. destruct (decide (k = n)) as [->|Hne].
  - destruct (update_lookup_self n a e d ev now sm) as (st & -> & _). eauto.
  - now rewrite update_lookup_other.
Qed.

Ltac statics_simpl :=
  repeat first
    [ rewrite statics_add_log | rewrite statics_add_call | rewrite statics_set_last
    | rewrite statics_set_reader
    | rewrite update_statics by (repeat apply present_update; assumption) ].

Lemma dispatch_statics h now cam sm :
  is_Some (sensor_status sm !! "camera"%string) ->
  statics (dispatch h now cam sm) = statics sm.
Proof.
  intros Hc. unfold dispatch.
  destruct (image_result cam) as [[ip iu]|ex]; [|statics_simpl; reflexivity].
  destruct (video_result cam) as [[vp vu]|ex]; [|statics_simpl; reflexivity].
  destruct h; cbn -[statics _update_sensor_status add_call add_log set_last_event_time];
    statics_simpl; reflexivity.
Qed.

Lemma handle_statics h now cam sm :
  is_Some (sensor_status sm !! "camera"%string) ->
  statics (handle h now cam sm) = statics sm.
Proof.
  intros Hc. unfold handle. destruct (cooldown_active sm now); [reflexivity|].
  now apply dispatch_statics.
Qed.

Lemma poll_step_statics p now cam sm :
  channels_present sm -> statics (poll_step p now cam sm) = statics sm.
Proof.
  intros (Hm & Hd & Hw & Hr & Hc).
  destruct p as [r|r|r|[st uid]]; cbn [poll_step].
  1-3: unfold _handle_motion_iteration, _handle_door_iteration, _handle_window_iteration,
         contact_iteration; cbn [chan door_contact motion_contact window_contact];
       destruct r as [[|]|ex];
       [ unfold _handle_intrusion_event; rewrite handle_statics
           by (repeat apply present_update; assumption) | | ];
       statics_simpl; reflexivity.
  unfold _handle_rfid_iteration.
  destruct (RFIDStatus_eqb st OK); [|reflexivity].
  destruct (authenticate_card uid (reader sm)) as [[ast role] b].
  destruct (RFIDStatus_eqb ast OK).
  - statics_simpl. reflexivity.
  - unfold _handle_unauthorized_access. rewrite handle_statics
      by (repeat apply present_update; assumption).
    statics_simpl. reflexivity.
Qed.

Lemma statics_channels sm1 sm2 :
  statics sm1 = statics sm2 -> channels_present sm2 -> channels_present sm1.
Proof.
  intros E (Hm & Hd & Hw & Hr & Hc).
  split_and!; eapply statics_present; eauto.
Qed.

Lemma run_polls_statics ps sm :
  channels_present sm -> statics (run_polls ps sm) = statics sm.
Proof.
  revert sm. induction ps as [|[[p now] cam] ps IH]; intros sm H; [reflexivity|].
  cbn. pose proof (poll_step_statics p now cam sm H) as E.
  rewrite IH; [exact E|]. eapply statics_channels; eauto.
Qed.

Lemma init_channels now cd : channels_present (SensorManager_init now cd).
Proof. split_and!; vm_compute; eauto. Qed.

(** From [__init__], whatever the workers poll, the name, type, location
    and firmware version of every entry stay those [__init__] gave: the
    seven entries of [_initialize_sensor_status], none added or lost. *)
Theorem statics_invariant (now : Time) (cd : Z) (ps : list (Poll * Time * CamResult)) :
  statics (run_polls ps (SensorManager_init now cd)) =
  list_to_map
    [("motion", ("motion", "motion", Some "pin_17", None));
     ("door", ("door", "door", Some "pin_27", None));
     ("window", ("window", "window", Some "pin_22", None));
     ("rfid", ("rfid", "rfid", Some "main_reader", None));
     ("camera", ("camera", "camera", Some "main_camera", None));
     ("door_lock", ("door_lock", "actuator", Some "pin_24", None));
     ("window_lock", ("window_lock", "actuator", Some "pin_25", None))]%string.
Proof.
  rewrite run_polls_statics by apply init_channels.
  vm_compute. reflexivity.
Qed.

Lemma count_add_log en sm k : event_count_of (add_log en sm) k = event_count_of sm k.
Proof. reflexivity. Qed.
Lemma count_add_call c sm k : event_count_of (add_call c sm) k = event_count_of sm k.
Proof. reflexivity. Qed.
Lemma count_set_last t sm k : event_count_of (set_last_event_time t sm) k = event_count_of sm k.
Proof. reflexivity. Qed.
Lemma count_set_reader b sm k : event_count_of (set_reader b sm) k = event_count_of sm k.
Proof. reflexivity. Qed.
Lemma calls_add_log en sm : calls (add_log en sm) = calls sm.
Proof. reflexivity. Qed.
Lemma calls_add_call c sm : calls (add_call c sm) = calls sm ++ [c].
Proof. reflexivity. Qed.
Lemma calls_set_last t sm : calls (set_last_event_time t sm) = calls sm.
Proof. reflexivity. Qed.
Lemma calls_set_reader b sm : calls (set_reader b sm) = calls sm.
Proof. reflexivity. Qed.

Lemma last_add_log en sm : last_event_time (add_log en sm) = last_event_time sm.
Proof. reflexivity. Qed.
Lemma last_set_reader b sm : last_event_time (set_reader b sm) = last_event_time sm.
Proof. reflexivity. Qed.
Lemma cooldown_add_log en sm : event_cooldown (add_log en sm) = event_cooldown sm.
Proof. reflexivity. Qed.
Lemma cooldown_set_reader b sm : event_cooldown (set_reader b sm) = event_cooldown sm.
Proof. reflexivity. Qed.

Ltac fields_simpl :=
  repeat first
    [ rewrite calls_add_log | rewrite calls_set_reader | rewrite update_calls
    | rewrite last_add_log | rewrite last_set_reader | rewrite update_last
    | rewrite cooldown_add_log | rewrite cooldown_set_reader | rewrite update_cooldown ].

Lemma count_update (n k : string) a e d ev now (sm : SM) :
  is_Some (sensor_status sm !! n) ->
  event_count_of (_update_sensor_status n a e d ev now sm) k
  = event_count_of sm k + (if ev && String.eqb k n then 1 else 0).
Proof.
  intros [cur Hc]. destruct (String.eqb_spec k n) as [->|Hne].
  - unfold event_count_of, _update_sensor_status. rewrite Hc. cbn.
    rewrite lookup_insert_eq. cbn. destruct ev; cbn; lia.
  - unfold event_count_of. rewrite update_lookup_other by exact Hne.
    rewrite andb_false_r. lia.
Qed.

Lemma count_handle_other h now cam sm k :
  k <> "camera"%string -> event_count_of (handle h now cam sm) k = event_count_of sm k.
Proof. intros Hk. unfold event_count_of. now rewrite handle_lookup_other. Qed.

Ltac present := repeat apply present_update; assumption.

Ltac count_simpl :=
  repeat first
    [ rewrite count_add_log | rewrite count_add_call | rewrite count_set_last
    | rewrite count_set_reader | rewrite calls_add_log | rewrite calls_add_call
    | rewrite calls_set_last | rewrite calls_set_reader | rewrite update_calls
    | rewrite count_alerts_app
    | rewrite count_update by present ].

Lemma handle_camera_count h now cam sm :
  is_Some (sensor_status sm !! "camera"%string) ->
  event_count_of (handle h now cam sm) "camera"
  = event_count_of sm "camera" + Z.of_nat (count_alerts (calls (handle h now cam sm)))
    - Z.of_nat (count_alerts (calls sm)).
Proof.
  intros Hc. unfold handle. destruct (cooldown_active sm now); [count_simpl; lia|].
  unfold dispatch.
  destruct (image_result cam) as [[ip iu]|ex]; [|count_simpl; cbn -[event_count_of]; lia].
  destruct (video_result cam) as [[vp vu]|ex]; [|count_simpl; cbn -[event_count_of]; lia].
  destruct h; cbn -[event_count_of _update_sensor_status add_call add_log set_last_event_time];
    count_simpl; cbn -[event_count_of]; lia.
Qed.

Lemma poll_step_count_other p now cam sm k :
  channels_present sm -> k <> "camera"%string ->
  event_count_of (poll_step p now cam sm) k
  = event_count_of sm k + (if poll_event_on k p then 1 else 0).
Proof.
  intros (Hm & Hd & Hw & Hr & Hc) Hk.
  destruct p as [r|r|r|[st uid]]; cbn [poll_step].
  1-3: unfold _handle_motion_iteration, _handle_door_iteration, _handle_window_iteration,
         contact_iteration; cbn [chan door_contact motion_contact window_contact];
       destruct r as [[|]|ex];
       [ unfold _handle_intrusion_event; rewrite count_handle_other by exact Hk | | ];
       count_simpl; cbn [poll_event_on andb];
       rewrite ?andb_false_l;
       repeat match goal with |- context [String.eqb ?a ?b] => destruct (String.eqb a b) end;
       lia.
  unfold _handle_rfid_iteration. cbn [poll_event_on].
  destruct (RFIDStatus_eqb st OK); cbn [andb]; [|lia].
  destruct (authenticate_card uid (reader sm)) as [[ast role] b].
  destruct (RFIDStatus_eqb ast OK).
  - count_simpl. cbn [andb]. lia.
  - unfold _handle_unauthorized_access. rewrite count_handle_other by exact Hk.
    count_simpl. cbn [andb]. lia.
Qed.

Lemma poll_step_count_camera p now cam sm :
  channels_present sm ->
  event_count_of (poll_step p now cam sm) "camera"
  = event_count_of sm "camera" + Z.of_nat (count_alerts (calls (poll_step p now cam sm)))
    - Z.of_nat (count_alerts (calls sm)).
Proof.
  intros (Hm & Hd & Hw & Hr & Hc).
  destruct p as [r|r|r|[st uid]]; cbn [poll_step].
  1-3: unfold _handle_motion_iteration, _handle_door_iteration, _handle_window_iteration,
         contact_iteration; cbn [chan door_contact motion_contact window_contact];
       destruct r as [[|]|ex];
       [ unfold _handle_intrusion_event; rewrite handle_camera_count by present | | ];
       count_simpl; cbn -[event_count_of]; lia.
  unfold _handle_rfid_iteration.
  destruct (RFIDStatus_eqb st OK); [|lia].
  destruct (authenticate_card uid (reader sm)) as [[ast role] b].
  destruct (RFIDStatus_eqb ast OK).
  - count_simpl. cbn -[event_count_of]. lia.
  - unfold _handle_unauthorized_access. rewrite handle_camera_count by present.
    count_simpl. cbn. lia.
Qed.

Lemma run_polls_counts ps sm :
  channels_present sm ->
  (forall k, k <> "camera"%string ->
     event_count_of (run_polls ps sm) k = event_count_of sm k + Z.of_nat (count_events k ps)) /\
  event_count_of (run_polls ps sm) "camera"
  = event_count_of sm "camera" + Z.of_nat (count_alerts (calls (run_polls ps sm)))
    - Z.of_nat (count_alerts (calls sm)).
Proof.
  revert sm. induction ps as [|[[p now] cam] ps IH]; intros sm H.
  - cbn. split; [intros; lia | lia].
  - cbn [run_polls count_events].
    assert (H' : channels_present (poll_step p now cam sm))
      by (eapply statics_channels; [apply poll_step_statics|]; eauto).
    destruct (IH _ H') as [IH1 IH2]. split.
    + intros k Hk. rewrite IH1 by exact Hk.
      rewrite poll_step_count_other by assumption.
      destruct (poll_event_on k p); lia.
    + rewrite IH2, poll_step_count_camera by exact H. lia.
Qed.

Lemma init_status_counts (sensor_name ty : string) (loc : option string) (now : Time) (sm : SM) :
  map_Forall (fun _ st => event_count st = 0) (sensor_status sm) ->
  map_Forall (fun _ st => event_count st = 0)
    (sensor_status (_initialize_sensor_status sensor_name ty loc now sm)).
Proof.
  intros H. unfold _initialize_sensor_status.
  destruct (sensor_status sm !! sensor_name); [exact H|].
  apply map_Forall_insert_2; [reflexivity|exact H].
Qed.

Lemma init_counts_all now cd :
  map_Forall (fun _ st => event_count st = 0) (sensor_status (SensorManager_init now cd)).
Proof.
  unfold SensorManager_init.
  do 7 refine (init_status_counts _ _ _ _ _ _).
  apply map_Forall_empty.
Qed.

Lemma init_counts now cd k : event_count_of (SensorManager_init now cd) k = 0.
Proof.
  pose proof (init_counts_all now cd) as H. unfold event_count_of.
  destruct (sensor_status (SensorManager_init now cd) !! k) as [st|] eqn:E; [|reflexivity].
  exact (H k st E).
Qed.

Lemma init_calls now cd : calls (SensorManager_init now cd) = [].
Proof. reflexivity. Qed.
(** From [__init__], after any sequence of worker iterations, the
    [event_count] of every entry other than the camera is the number of
    events its channel saw (motion seen, door or window open, a card
    read), and the camera's is the number of alerts sent. *)
Theorem event_counts_from_init (now : Time) (cd : Z) (ps : list (Poll * Time * CamResult)) :
  (forall k, k <> "camera"%string ->
     event_count_of (run_polls ps (SensorManager_init now cd)) k = Z.of_nat (count_events k ps)) /\
  event_count_of (run_polls ps (SensorManager_init now cd)) "camera"
  = Z.of_nat (count_alerts (calls (run_polls ps (SensorManager_init now cd)))).
Proof.
  destruct (run_polls_counts ps (SensorManager_init now cd) (init_channels now cd)) as [H1 H2].
  split.
  - intros k Hk. rewrite (H1 k Hk). rewrite (init_counts now cd k). lia.
  - rewrite H2, (init_counts now cd "camera"), (init_calls now cd). cbn [count_alerts]. lia.
Qed.
(** *** Card and contact iterations *)

(** One card-worker iteration that read a card: a UID of
    [AUTHORIZED_CARDS] marks the card entry authorized with its role and
    touches neither the collaborators nor the cooldown; any other UID
    marks it unauthorized and then runs [_handle_unauthorized_access] on
    a state with the same calls and cooldown state. *)
Theorem rfid_iteration_outcome (uid : list Z) (now : Time) (cam : CamResult) (sm : SM) :
  let uid_str := String.concat "-" (map pretty uid) in
  let sm' := _handle_rfid_iteration (OK, uid) now cam sm in
  match card_lookup uid with
  | Some info =>
      calls sm' = calls sm /\ last_event_time sm' = last_event_time sm /\
      event_cooldown sm' = event_cooldown sm /\
      exists st, sensor_status sm' !! "rfid"%string = Some st /\ is_active st = true /\
        last_check st = now /\ error st = None /\
        data st = Some [("uid", VStr uid_str); ("authorized", VBool true);
                        ("role", VOptStr (Some (role info)))]%string
  | None =>
      exists sm1, sm' = _handle_unauthorized_access uid_str now cam sm1 /\
        calls sm1 = calls sm /\ last_event_time sm1 = last_event_time sm /\
        event_cooldown sm1 = event_cooldown sm /\
        exists st, sensor_status sm' !! "rfid"%string = Some st /\ is_active st = true /\
          last_check st = now /\ error st = None /\
          data st = Some [("uid", VStr uid_str); ("authorized", VBool false);
                          ("role", VOptStr (Some "unauthorized"))]%string
  end.
Proof.
  cbv zeta. unfold _handle_rfid_iteration. cbn [RFIDStatus_eqb].
  pose proof (RFIDProofs.authenticate_card_result uid (reader sm)) as Ha.
  destruct (authenticate_card uid (reader sm)) as [[ast role'] b]. cbn in Ha.
  destruct (card_lookup uid) as [info|]; injection Ha as -> ->; cbn [RFIDStatus_eqb].
  - fields_simpl. split_and!; try reflexivity.
    edestruct update_lookup_self as (st & E & A & L & Er & D).
    exists st. rewrite add_log_status. split_and!; [exact E|exact A|exact L|exact Er|exact D].
  - eexists. split; [reflexivity|].
    fields_simpl. split_and!; try reflexivity.
    unfold _handle_unauthorized_access. rewrite handle_lookup_other by discriminate.
    edestruct update_lookup_self as (st & E & A & L & Er & D).
    exists st. rewrite add_log_status. split_and!; [exact E|exact A|exact L|exact Er|exact D].
Qed.

(** One iteration of a contact worker: a raising sensor leaves its entry
    inactive with the error and no data, its event count unchanged, and
    makes no collaborator call; a reading [b] leaves the entry active, with
    no error and the data [{key: b}]. *)
Theorem contact_iteration_outcome (c : Contact) (reading : Exc bool) (now : Time)
    (cam : CamResult) (sm : SM) :
  chan c <> "camera"%string ->
  exists st, sensor_status (contact_iteration c reading now cam sm) !! chan c = Some st /\
    last_check st = now /\
    match reading with
    | Raised e =>
        is_active st = false /\ error st = Some e /\ data st = None /\
        event_count_of (contact_iteration c reading now cam sm) (chan c) = event_count_of sm (chan c) /\
        calls (contact_iteration c reading now cam sm) = calls sm /\
        last_event_time (contact_iteration c reading now cam sm) = last_event_time sm
    | Ok b => is_active st = true /\ error st = None /\ data st = Some [(data_key c, VBool b)]
    end.
Proof.
  intros Hc. unfold contact_iteration.
  destruct reading as [[|]|e].
  - unfold _handle_intrusion_event. rewrite handle_lookup_other by exact Hc.
    edestruct update_lookup_self as (st & E & A & L & Er & D).
    exists st. split_and!; eassumption.
  - edestruct update_lookup_self as (st & E & A & L & Er & D).
    exists st. split_and!; eassumption.
  - edestruct update_lookup_self as (st & E & A & L & Er & D).
    exists st. rewrite add_log_status. split_and!; try eassumption.
    + unfold event_count_of. rewrite add_log_status, E.
      unfold _update_sensor_status in E |- *.
      destruct (sensor_status sm !! chan c) as [cur|] eqn:Ecur.
      * cbn in E. rewrite lookup_insert_eq in E. injection E as <-. reflexivity.
      * cbn in E. rewrite lookup_insert_eq in E. injection E as <-. reflexivity.
    + rewrite calls_add_log, update_calls. reflexivity.
    + cbn. rewrite update_last. reflexivity.
Qed.

(** *** Self-test and the sensor route *)

(** [run_sensor_test] always reports "One or more tests failed": its call
    [read_card(timeout=0.5)] raises [TypeError], so the RFID result is
    always an error, whatever the sensors, the reader and the camera do.
    The results always list the six tests in order. *)
Theorem run_sensor_test_always_fails (motion door window : Exc bool)
    (rfid_read : RFIDStatus * list Z) (cam_status : Exc (bool * option string)) :
  fst (snd (run_sensor_test motion door window rfid_read cam_status))
    = "One or more tests failed"%string /\
  map fst (snd (snd (run_sensor_test motion door window rfid_read cam_status)))
    = ["motion"; "door"; "window"; "rfid"; "camera"; "door_lock"]%string /\
  snd (snd (run_sensor_test motion door window rfid_read cam_status)) !! 3%nat
    = Some ("rfid", ("error",
        "RFIDReader.read_card() got an unexpected keyword argument 'timeout'"))%string.
Proof.
  destruct motion as [b1|e1], door as [b2|e2], window as [b3|e3],
    cam_status as [[[|] [m|]]|e4];
  try destruct (String.eqb m ""); split_and!; reflexivity.
Qed.

(** The sensor route never answers 404: the [NotFound] raised for an
    unknown sensor type is caught by its own [except Exception] and turned
    into a 500 whose message embeds the 404. A known type answers its
    entry, and ["door"] falls back to ["door_lock"] only when there is no
    ["door"] entry. *)
Theorem get_sensor_data_outcomes (sensor_type : string) (sm : SM) :
  (forall d, get_sensor_data sensor_type sm <> inr (NotFound d)) /\
  (forall st, sensor_status sm !! sensor_type = Some st ->
     get_sensor_data sensor_type sm = inl (to_dict st)) /\
  (forall st, sensor_type = "door"%string -> sensor_status sm !! "door"%string = None ->
     sensor_status sm !! "door_lock"%string = Some st ->
     get_sensor_data sensor_type sm = inl (to_dict st)) /\
  (sensor_status sm !! sensor_type = None ->
   (sensor_type <> "door"%string \/ sensor_status sm !! "door_lock"%string = None) ->
   get_sensor_data sensor_type sm
   = inr (InternalServerError ("Failed to get sensor data: 404 Not Found: Sensor type '"
            ++ sensor_type ++ "' not found or status unavailable.")))%string.
Proof.
  unfold get_sensor_data, get_sensor_status.
  split_and!.
  - intros d. rewrite lookup_fmap.
    destruct (sensor_status sm !! sensor_type); cbn; [discriminate|].
    destruct (String.eqb sensor_type "door"); cbn; [|discriminate].
    rewrite lookup_fmap. destruct (sensor_status sm !! "door_lock"%string); discriminate.
  - intros st E. rewrite lookup_fmap, E. reflexivity.
  - intros st -> E1 E2. rewrite !lookup_fmap, E1, E2. reflexivity.
  - intros E1 H. rewrite lookup_fmap, E1. cbn.
    destruct (String.eqb_spec sensor_type "door") as [->|Hne]; [|reflexivity].
    destruct H as [H|H]; [congruence|]. rewrite lookup_fmap, H. reflexivity.
Qed.

(** *** The cooldown right after [__init__] *)

Lemma init_last now cd : last_event_time (SensorManager_init now cd) = now - 300 * SECOND.
Proof. reflexivity. Qed.
Lemma init_cooldown now cd : event_cooldown (SensorManager_init now cd) = cd.
Proof. reflexivity. Qed.

(** [__init__] backdates the cooldown timestamp by 300 s, not by the
    configured cooldown: with [EVENT_COOLDOWN] above 300 every poll within
    [EVENT_COOLDOWN - 300] s after start makes no collaborator call, and a
    qualifying poll after that captures. *)
Theorem init_cooldown_offset (now t cd : Z) (p : Poll) (cam : CamResult) :
  (t - now < (cd - 300) * SECOND ->
   calls (poll_step p t cam (SensorManager_init now cd)) = [] /\
   last_event_time (poll_step p t cam (SensorManager_init now cd)) = now - 300 * SECOND) /\
  (qualifying p = true -> (cd - 300) * SECOND <= t - now ->
   count_captures (calls (poll_step p t cam (SensorManager_init now cd))) = 1%nat).
Proof.
  split.
  - intros H.
    destruct (poll_step_cooled p t cam (SensorManager_init now cd)) as (C1 & C2 & _).
    + unfold cooldown_active. rewrite init_last, init_cooldown. apply Z.ltb_lt. lia.
    + rewrite C1, C2, init_last, init_calls. auto.
  - intros Hq H.
    destruct (poll_step_dispatch p t cam (SensorManager_init now cd) Hq) as (_ & C & _).
    + unfold cooldown_active. rewrite init_last, init_cooldown. apply Z.ltb_ge. lia.
    + rewrite C, init_calls. reflexivity.
Qed.

(** *** Worker threads *)



Lemma life_inv_sub (l l' : Life) :
  next_wid l' = next_wid l ->
  (forall x, In x (threads l' ++ live l') -> In x (threads l ++ live l)) ->
  life_inv l -> life_inv l'.
Proof.
  intros En Hs Hi x Hx. rewrite En.
  destruct (Hi x (Hs x Hx)) as (H1 & H2 & H3). split_and!; [exact H1|exact H2|].
  intros y Hy. apply H3, Hs, Hy.
Qed.

Lemma is_alive_llog e l w : is_alive (llog e l) w = is_alive l w.
Proof. reflexivity. Qed.

Lemma is_alive_end_other x l w :
  wid x <> wid w -> is_alive (end_thread x l) w = is_alive l w.
Proof.
  intros Hne. unfold is_alive, end_thread. cbn.
  induction (live l) as [|y ys IH]; [reflexivity|]. cbn.
  destruct (Nat.eqb_spec (wid y) (wid x)) as [Ey|Ey]; cbn.
  - rewrite IH. destruct (Nat.eqb_spec (wid y) (wid w)); [congruence|reflexivity].
  - rewrite IH. reflexivity.
Qed.

Lemma join_all_shape exits ws l :
  running (join_all exits ws l) = running l /\ threads (join_all exits ws l) = threads l /\
  next_wid (join_all exits ws l) = next_wid l /\
  (forall x, In x (live (join_all exits ws l)) -> In x (live l)).
Proof.
  revert l. induction ws as [|w ws IH]; intros l; [cbn; auto|].
  cbn [join_all].
  match goal with |- context [join_all exits ws ?l'] =>
    destruct (IH l') as (R & T & N & L) end.
  rewrite R, T, N. clear R T N.
  destruct (is_alive l w); [destruct (exits w)|]; cbn; split_and!; auto.
  intros x Hx. apply L in Hx. cbn in Hx. apply filter_In in Hx. tauto.
Qed.

Lemma join_all_alive exits ws l w :
  (forall x, In x ws -> wid x = wid w -> exits x = false) ->
  is_alive l w = true -> is_alive (join_all exits ws l) w = true.
Proof.
  revert l. induction ws as [|x ws IH]; intros l Hx Ha; [exact Ha|].
  cbn [join_all]. apply IH; [intros y Hy; apply Hx; right; exact Hy|].
  destruct (is_alive l x); [|exact Ha].
  destruct (exits x) eqn:Ex; [|exact Ha].
  rewrite is_alive_llog, is_alive_end_other; [exact Ha|].
  intros E. rewrite (Hx x (or_introl eq_refl) E) in Ex. discriminate.
Qed.

Lemma stop_shape exits l :
  running (stop exits l) = false /\ next_wid (stop exits l) = next_wid l /\
  threads (stop exits l) = (if running l then [] else threads l) /\
  (forall x, In x (live (stop exits l)) -> In x (live l)).
Proof.
  unfold stop. destruct (running l) eqn:Er; cbn [negb].
  - destruct (join_all_shape exits (threads l) (mkLife false [] (live l) (next_wid l)
                (life_logs l ++ [mkLog LINFO "Stopping all sensor threads..." []])))
      as (R & T & N & L).
    cbn. rewrite R, T, N. split_and!; auto.
  - cbn. split_and!; auto.
Qed.

Lemma stop_inv exits l : life_inv l -> life_inv (stop exits l).
Proof.
  destruct (stop_shape exits l) as (_ & N & T & L).
  apply life_inv_sub; [exact N|].
  intros x Hx. apply in_app_or in Hx. apply in_or_app. rewrite T in Hx.
  destruct Hx as [Hx|Hx]; [destruct (running l); [destruct Hx|left; exact Hx]|].
  right. apply L, Hx.
Qed.

Lemma start_pre_shape exits l :
  let l1 := match threads l with
            | [] => l
            | _ :: _ => stop exits (llog (mkLog LWARNING
                "Sensor threads already started or not cleaned up properly. Attempting restart." []) l)
            end in
  life_inv l -> life_inv l1 /\ next_wid l1 = next_wid l /\
  (forall w, is_alive l w = true -> In w (threads l) ->
     (forall x, In x (threads l) -> wid x = wid w -> exits x = false) -> is_alive l1 w = true).
Proof.
  cbv zeta. intros Hi. destruct (threads l) as [|t ts] eqn:Et.
  - split_and!; auto.
  - split_and!.
    + apply stop_inv. exact Hi.
    + apply (stop_shape exits (llog (mkLog LWARNING
        "Sensor threads already started or not cleaned up properly. Attempting restart." []) l)).
    + intros w Ha _ Hx. unfold stop. cbn [llog running].
      destruct (running l); cbn [negb].
      * cbn. apply join_all_alive; [|exact Ha].
        cbn. rewrite Et. exact Hx.
      * exact Ha.
Qed.

Lemma start_inv exits l : life_inv l -> life_inv (start exits l).
Proof.
  intros Hi. unfold start.
  destruct (start_pre_shape exits l Hi) as (Hi1 & _ & _).
  revert Hi1.
  generalize (match threads l with
              | [] => l
              | _ :: _ => stop exits (llog (mkLog LWARNING
                  "Sensor threads already started or not cleaned up properly. Attempting restart." []) l)
              end) as l1.
  intros l1 Hi1 x Hx. cbn [threads live next_wid] in Hx |- *.
  set (n := next_wid l1) in *.
  assert (Hws : forall y, In y [mkWorker n "MotionThread"; mkWorker (S n) "DoorThread";
                             mkWorker (S (S n)) "WindowThread"; mkWorker (S (S (S n))) "RFIDThread"]%string ->
            (n <= wid y < n + 4)%nat /\ In (wname y) worker_names /\
            forall z, In z [mkWorker n "MotionThread"; mkWorker (S n) "DoorThread";
                             mkWorker (S (S n)) "WindowThread"; mkWorker (S (S (S n))) "RFIDThread"]%string ->
                      wid y = wid z -> y = z).
  { intros y Hy. cbn in Hy.
    destruct Hy as [<-|[<-|[<-|[<-|[]]]]]; cbn; split_and!; try lia; try tauto;
      intros z Hz; destruct Hz as [<-|[<-|[<-|[<-|[]]]]]; cbn; intros; first [reflexivity | lia]. }
  assert (Hold : forall y, In y (live l1) ->
            (wid y < n)%nat /\ In (wname y) worker_names /\
            forall z, In z (live l1) -> wid y = wid z -> y = z).
  { intros y Hy. destruct (Hi1 y (in_or_app _ _ _ (or_intror Hy))) as (A & B & C).
    split_and!; auto. intros z Hz. apply C. apply in_or_app. right. exact Hz. }
  apply in_app_or in Hx as [Hx|Hx]; [|apply in_app_or in Hx as [Hx|Hx]].
  - destruct (Hws x Hx) as (A & B & C). split_and!; [lia|exact B|].
    intros y Hy E. apply in_app_or in Hy as [Hy|Hy]; [apply C; auto|].
    apply in_app_or in Hy as [Hy|Hy]; [|apply C; auto].
    destruct (Hold y Hy) as (A' & _). lia.
  - destruct (Hold x Hx) as (A & B & C). split_and!; [lia|exact B|].
    intros y Hy E. apply in_app_or in Hy as [Hy|Hy];
      [|apply in_app_or in Hy as [Hy|Hy]; [apply C; auto|]];
      destruct (Hws y Hy) as (A' & _); lia.
  - destruct (Hws x Hx) as (A & B & C). split_and!; [lia|exact B|].
    intros y Hy E. apply in_app_or in Hy as [Hy|Hy]; [apply C; auto|].
    apply in_app_or in Hy as [Hy|Hy]; [|apply C; auto].
    destruct (Hold y Hy) as (A' & _). lia.
Qed.

Lemma worker_check_inv w l : life_inv l -> life_inv (worker_check w l).
Proof.
  unfold worker_check. destruct (is_alive l w && negb (running l)); [|auto].
  apply life_inv_sub; [reflexivity|].
  intros x Hx. cbn in Hx. apply in_app_or in Hx. apply in_or_app.
  destruct Hx as [Hx|Hx]; [left; exact Hx|]. apply filter_In in Hx. right. tauto.
Qed.

Lemma run_life_inv evs l : life_inv l -> life_inv (run_life evs l).
Proof.
  revert l. induction evs as [|[exits|exits|w] evs IH]; intros l Hi; cbn; [exact Hi|..];
    apply IH.
  - apply start_inv, Hi.
  - apply stop_inv, Hi.
  - apply worker_check_inv, Hi.
Qed.

Lemma life_init_inv : life_inv life_init.
Proof. intros x []. Qed.

Lemma check_threads_alive ws l :
  Forall (fun x => is_alive l x = true) ws -> check_threads ws l = (true, l).
Proof.
  induction 1 as [|x ws Hx _ IH]; [reflexivity|]. cbn. rewrite Hx. exact IH.
Qed.

Lemma is_alive_app_r l1 ws x : In x ws ->
  existsb (fun w' => Nat.eqb (wid w') (wid x)) (l1 ++ ws) = true.
Proof.
  intros Hx. apply existsb_exists. exists x. split; [apply in_or_app; right; exact Hx|].
  apply Nat.eqb_refl.
Qed.

(** Both flags of [stop]: whatever the state, the manager reports itself
    unhealthy afterwards, keeps no thread handle, and a second [stop] only
    logs; before [start], with no thread at all, it reports healthy. *)
(** After [stop] the manager is unhealthy; a [stop] of a running manager
    drops every thread handle; a second [stop] only logs. Right after
    [__init__], before any thread is started, [is_healthy] is [True]. *)
Theorem stop_then_unhealthy (exits exits' : Worker -> bool) (l : Life) :
  is_healthy (stop exits l) = (false, stop exits l) /\
  threads (stop exits l) = (if running l then [] else threads l) /\
  stop exits' (stop exits l)
  = llog (mkLog LINFO "Sensor threads already stopping or stopped." []) (stop exits l) /\
  is_healthy life_init = (true, life_init).
Proof.
  destruct (stop_shape exits l) as (R & _ & T & _).
  split_and!.
  - unfold is_healthy. rewrite R. reflexivity.
  - exact T.
  - unfold stop at 1. rewrite R. reflexivity.
  - reflexivity.
Qed.

(** A restart through [start] on a state with threads: a worker that does
    not join within the timeout keeps running, and keeps running since the
    flag is up again, while [start] creates a new thread for the same
    channel; [is_healthy] reports healthy. *)
Theorem restart_keeps_stuck_thread (evs : list LifeEvent) (exits : Worker -> bool) (w : Worker) :
  In w (threads (run_life evs life_init)) ->
  is_alive (run_life evs life_init) w = true -> exits w = false ->
  let l' := start exits (run_life evs life_init) in
  running l' = true /\ is_alive l' w = true /\ is_alive (worker_check w l') w = true /\
  ~ In w (threads l') /\
  (exists w2, In w2 (threads l') /\ wname w2 = wname w /\ w2 <> w) /\
  is_healthy l' = (true, l').
Proof.
  intros Hin Ha Hx. cbv zeta.
  set (l := run_life evs life_init) in *.
  assert (Hi : life_inv l) by (apply run_life_inv, life_init_inv).
  destruct (start_pre_shape exits l Hi) as (Hi1 & N1 & A1).
  assert (Hxs : forall x, In x (threads l) -> wid x = wid w -> exits x = false).
  { intros x Hx' E. destruct (Hi x (in_or_app _ _ _ (or_introl Hx'))) as (_ & _ & C).
    rewrite (C w (in_or_app _ _ _ (or_introl Hin)) E). exact Hx. }
  specialize (A1 w Ha Hin Hxs).
  destruct (Hi w (in_or_app _ _ _ (or_introl Hin))) as (Hlt & Hname & _).
  unfold start. revert N1 A1.
  generalize (match threads l with
              | [] => l
              | _ :: _ => stop exits (llog (mkLog LWARNING
                  "Sensor threads already started or not cleaned up properly. Attempting restart." []) l)
              end) as l1.
  intros l1 N1 A1. cbv zeta.
  assert (Alive : is_alive (mkLife true
     [mkWorker (next_wid l1) "MotionThread"; mkWorker (S (next_wid l1)) "DoorThread";
      mkWorker (S (S (next_wid l1))) "WindowThread"; mkWorker (S (S (S (next_wid l1)))) "RFIDThread"]
     (live l1 ++ [mkWorker (next_wid l1) "MotionThread"; mkWorker (S (next_wid l1)) "DoorThread";
      mkWorker (S (S (next_wid l1))) "WindowThread"; mkWorker (S (S (S (next_wid l1)))) "RFIDThread"])
     (next_wid l1 + 4)
     (life_logs l1 ++ [mkLog LINFO "All sensor threads started successfully" []])) w = true).
  { unfold is_alive in *. cbn [live]. rewrite existsb_app, A1. reflexivity. }
  split_and!.
  - reflexivity.
  - exact Alive.
  - unfold worker_check. cbn [running negb]. rewrite andb_false_r. exact Alive.
  - cbn [threads]. intros Hw.
    destruct Hw as [<-|[<-|[<-|[<-|[]]]]]; cbn in Hlt; lia.
  - cbn in Hname. cbn [threads].
    destruct Hname as [E|[E|[E|[E|[]]]]];
      [exists (mkWorker (next_wid l1) "MotionThread")
      |exists (mkWorker (S (next_wid l1)) "DoorThread")
      |exists (mkWorker (S (S (next_wid l1))) "WindowThread")
      |exists (mkWorker (S (S (S (next_wid l1)))) "RFIDThread")];
      (split; [cbn; tauto|]); (split; [cbn; exact E|]);
      intros Ew; rewrite <- Ew in Hlt; cbn in Hlt; lia.
  - unfold is_healthy. cbn [running negb threads].
    apply check_threads_alive.
    repeat constructor; unfold is_alive; cbn [live]; apply is_alive_app_r; cbn; tauto.
Qed.

Lemma contact_iteration_outcome_witness :
  chan motion_contact <> "camera"%string /\
  exists st, sensor_status (contact_iteration motion_contact (Raised "no GPIO") 0 cam_success
                              (SensorManager_init 0 300)) !! chan motion_contact = Some st /\
    last_check st = 0 /\
    is_active st = false /\ error st = Some "no GPIO"%string /\ data st = None /\
    event_count_of (contact_iteration motion_contact (Raised "no GPIO") 0 cam_success
                      (SensorManager_init 0 300)) (chan motion_contact)
    = event_count_of (SensorManager_init 0 300) (chan motion_contact) /\
    calls (contact_iteration motion_contact (Raised "no GPIO") 0 cam_success
             (SensorManager_init 0 300)) = calls (SensorManager_init 0 300) /\
    last_event_time (contact_iteration motion_contact (Raised "no GPIO") 0 cam_success
                       (SensorManager_init 0 300)) = last_event_time (SensorManager_init 0 300).
Proof.
  assert (H : chan motion_contact <> "camera"%string) by discriminate.
  split; [exact H|].
  exact (contact_iteration_outcome motion_contact (Raised "no GPIO") 0 cam_success
           (SensorManager_init 0 300) H).
Defined.

Lemma get_sensor_data_outcomes_witness :
  sensor_status (SensorManager_init 0 300) !! "temperature"%string = None /\
  get_sensor_data "temperature" (SensorManager_init 0 300)
  = inr (InternalServerError ("Failed to get sensor data: 404 Not Found: Sensor type '"
           ++ "temperature" ++ "' not found or status unavailable."))%string.
Proof.
  assert (H : sensor_status (SensorManager_init 0 300) !! "temperature"%string = None)
    by (vm_compute; reflexivity).
  split; [exact H|].
  apply (proj2 (proj2 (proj2 (get_sensor_data_outcomes "temperature" (SensorManager_init 0 300)))));
    [exact H|left; discriminate].
Defined.

Lemma init_cooldown_offset_witness :
  60 * SECOND - 0 < (600 - 300) * SECOND /\
  calls (poll_step (PMotion (Ok true)) (60 * SECOND) cam_success (SensorManager_init 0 600)) = [] /\
  last_event_time (poll_step (PMotion (Ok true)) (60 * SECOND) cam_success (SensorManager_init 0 600))
  = 0 - 300 * SECOND.
Proof.
  assert (H : 60 * SECOND - 0 < (600 - 300) * SECOND) by (unfold SECOND; lia).
  split; [exact H|].
  exact (proj1 (init_cooldown_offset 0 (60 * SECOND) 600 (PMotion (Ok true)) cam_success) H).
Defined.

Lemma restart_keeps_stuck_thread_witness :
  In (mkWorker 0 "MotionThread") (threads (run_life [EStart (fun _ => false)] life_init)) /\
  is_alive (run_life [EStart (fun _ => false)] life_init) (mkWorker 0 "MotionThread") = true /\
  (fun _ : Worker => false) (mkWorker 0 "MotionThread") = false /\
  let l' := start (fun _ => false) (run_life [EStart (fun _ => false)] life_init) in
  running l' = true /\ is_alive l' (mkWorker 0 "MotionThread") = true /\
  is_alive (worker_check (mkWorker 0 "MotionThread") l') (mkWorker 0 "MotionThread") = true /\
  ~ In (mkWorker 0 "MotionThread") (threads l') /\
  (exists w2, In w2 (threads l') /\ wname w2 = wname (mkWorker 0 "MotionThread") /\
     w2 <> mkWorker 0 "MotionThread") /\
  is_healthy l' = (true, l').
Proof.
  assert (H1 : In (mkWorker 0 "MotionThread")
                 (threads (run_life [EStart (fun _ => false)] life_init)))
    by (cbn; left; reflexivity).
  assert (H2 : is_alive (run_life [EStart (fun _ => false)] life_init)
                 (mkWorker 0 "MotionThread") = true) by reflexivity.
  assert (H3 : (fun _ : Worker => false) (mkWorker 0 "MotionThread") = false) by reflexivity.
  split; [exact H1|]. split; [exact H2|]. split; [exact H3|].
  exact (restart_keeps_stuck_thread [EStart (fun _ => false)] (fun _ => false)
           (mkWorker 0 "MotionThread") H1 H2 H3).
Defined.

End SensorExtraProofs.
